(** * Discovery / configuration agent: a shallow embedding of the UDP
      responder ([main.go]) and of the client's codec and acceptance tests
      ([cmd/discover_gui/main.go]).

    Go strings are byte sequences: they are modelled as [list ascii].  The Go
    [int] type is modelled as [Z].  The operating system (files, the clock,
    the reboot command) is an explicit [World] record that the handlers
    thread through. *)

From Stdlib Require Import ZArith NArith Ascii String List Lia Bool.
From Stdlib Require Import DecimalString HexadecimalString.
From stdpp Require Import base tactics option list strings.
Import ListNotations.

Local Open Scope Z_scope.

(* ===================================================================== *)
(** * Part I.  The model                                                  *)
(* ===================================================================== *)

(** ** Strings and bytes *)

Abbreviation str := (list ascii) (only parsing).

(** A string literal of the source. *)
Definition lit (s : string) : str := list_ascii_of_string s.

Definition byteOf (c : ascii) : N := N_of_ascii c.

(** [c < utf8.RuneSelf] *)
Definition isASCII (c : ascii) : bool := (byteOf c <? 128)%N.

Definition eqStr (a b : str) : bool := bool_decide (a = b).

Definition isEmpty (s : str) : bool :=
  match s with [] => true | _ => false end.

(** ** The [strings] package *)

(** The six ASCII bytes of [unicode.IsSpace]: tab, line feed, vertical tab,
    form feed, carriage return and blank. *)
Definition asciiSpace (c : ascii) : bool :=
  match byteOf c with
  | 9 | 10 | 11 | 12 | 13 | 32 => true
  | _ => false
  end%N.

(** The two-byte UTF-8 encodings of white space: U+0085 and U+00A0. *)
Definition space2 (c d : ascii) : bool :=
  (byteOf c =? 194)%N && ((byteOf d =? 133)%N || (byteOf d =? 160)%N).

(** The three-byte UTF-8 encodings of white space: U+1680, U+2000..U+200A,
    U+2028, U+2029, U+202F, U+205F and U+3000. *)
Definition space3 (c d e : ascii) : bool :=
  let x := byteOf c in let y := byteOf d in let z := byteOf e in
  ((x =? 225) && (y =? 154) && (z =? 128))%N
  || ((x =? 226) && (y =? 128)
      && (((128 <=? z) && (z <=? 138)) || (z =? 168) || (z =? 169) || (z =? 175)))%N
  || ((x =? 226) && (y =? 129) && (z =? 159))%N
  || ((x =? 227) && (y =? 128) && (z =? 128))%N.

(** [strings.TrimLeftFunc(s, unicode.IsSpace)]: runes are decoded from the
    left; a white-space rune is one of the encodings above. *)
Fixpoint trimLeft (s : str) : str :=
  match s with
  | [] => []
  | c :: r =>
      if asciiSpace c then trimLeft r
      else match r with
           | [] => s
           | d :: r1 =>
               if space2 c d then trimLeft r1
               else match r1 with
                    | [] => s
                    | e :: r2 => if space3 c d e then trimLeft r2 else s
                    end
           end
  end.

(** The same scan over the reversed string: runes are decoded from the
    right ([utf8.DecodeLastRuneInString]). *)
Fixpoint trimRev (s : str) : str :=
  match s with
  | [] => []
  | e :: r =>
      if asciiSpace e then trimRev r
      else match r with
           | [] => s
           | d :: r1 =>
               if space2 d e then trimRev r1
               else match r1 with
                    | [] => s
                    | c :: r2 => if space3 c d e then trimRev r2 else s
                    end
           end
  end.

Definition trimRight (s : str) : str := rev (trimRev (rev s)).

(** [strings.TrimSpace] *)
Definition TrimSpace (s : str) : str := trimRight (trimLeft s).

(** [strings.HasPrefix] *)
Fixpoint HasPrefix (s prefix : str) : bool :=
  match prefix, s with
  | [], _ => true
  | _ :: _, [] => false
  | p :: prefix', c :: s' => Ascii.eqb c p && HasPrefix s' prefix'
  end.

(** [strings.HasSuffix] *)
Definition HasSuffix (s suffix : str) : bool := HasPrefix (rev s) (rev suffix).

(** [strings.TrimPrefix] *)
Definition TrimPrefix (s prefix : str) : str :=
  if HasPrefix s prefix then drop (length prefix) s else s.

(** [strings.TrimSuffix] *)
Definition TrimSuffix (s suffix : str) : str :=
  if HasSuffix s suffix then take (length s - length suffix)%nat s else s.

(** [strings.Contains] *)
Fixpoint Contains (s substr : str) : bool :=
  HasPrefix s substr
  || match s with
     | [] => false
     | _ :: r => Contains r substr
     end.

(** [strings.Index(s, sep)] for a one-byte [sep]; [None] is Go's [-1]. *)
Fixpoint Index (s : str) (sep : ascii) : option nat :=
  match s with
  | [] => None
  | c :: r => if Ascii.eqb c sep then Some 0%nat else S <$> Index r sep
  end.

(** [strings.Split(s, sep)] for a one-byte [sep] (every separator of the
    program is a single byte). *)
Fixpoint Split (s : str) (sep : ascii) : list str :=
  match s with
  | [] => [[]]
  | c :: r =>
      if Ascii.eqb c sep then [] :: Split r sep
      else match Split r sep with
           | f :: fs => (c :: f) :: fs
           | [] => [[c]]
           end
  end.

(** [strings.SplitN(s, sep, 2)] for a one-byte [sep]. *)
Definition SplitN2 (s : str) (sep : ascii) : list str :=
  match Index s sep with
  | None => [s]
  | Some i => [take i s; drop (S i) s]
  end.

(** [strings.Join] *)
Fixpoint Join (elems : list str) (sep : str) : str :=
  match elems with
  | [] => []
  | [x] => x
  | x :: rest => x ++ sep ++ Join rest sep
  end.

(** [strings.ReplaceAll(s, old, new)] for one-byte [old] and [new]. *)
Definition ReplaceAll (s : str) (old new : ascii) : str :=
  map (fun c => if Ascii.eqb c old then new else c) s.

(** [strings.Fields]: the maximal runs without white space.  [cur] is the
    field being read. *)
Fixpoint fieldsFrom (s cur : str) : list str :=
  let flush rest := if isEmpty cur then rest else cur :: rest in
  match s with
  | [] => flush []
  | c :: r =>
      if asciiSpace c then flush (fieldsFrom r [])
      else match r with
           | [] => [cur ++ [c]]
           | d :: r1 =>
               if space2 c d then flush (fieldsFrom r1 [])
               else match r1 with
                    | [] => fieldsFrom r (cur ++ [c])
                    | e :: r2 =>
                        if space3 c d e then flush (fieldsFrom r2 [])
                        else fieldsFrom r (cur ++ [c])
                    end
           end
  end.

Definition Fields (s : str) : list str := fieldsFrom s [].

(** ** What the model takes from the Go library as a parameter

    The Unicode case tables and the IPv6 literal parser are not part of the
    program.  Three functions stand for them; every theorem holds for all
    three, and at ASCII inputs none of them is reached. *)
Class GoLibrary := {
  (** [strings.Map(unicode.ToUpper, s)] on a string whose first byte is
      not ASCII *)
  unicodeUpper : str -> str;
  (** the rune-by-rune comparison [strings.EqualFold] falls back to when it
      meets a byte that is not ASCII *)
  unicodeEqualFold : str -> str -> bool;
  (** [net.ParseIP] on a text whose first separator is a colon: the 16
      bytes of the address *)
  parseIPv6 : str -> option (list Z)
}.

(** An instance for evaluating the model on ASCII inputs. *)
Definition asciiLibrary : GoLibrary :=
  {| unicodeUpper := fun s => s;
     unicodeEqualFold := fun s t => eqStr s t;
     parseIPv6 := fun _ => None |}.

Definition asciiUpper (c : ascii) : ascii :=
  let n := byteOf c in
  if ((97 <=? n) && (n <=? 122))%N then ascii_of_N (n - 32) else c.

(** [strings.ToUpper]: ASCII bytes are mapped one by one up to the first
    byte that is not ASCII. *)
Fixpoint ToUpper `{GoLibrary} (s : str) : str :=
  match s with
  | [] => []
  | c :: r => if isASCII c then asciiUpper c :: ToUpper r else unicodeUpper s
  end.

(** [strings.EqualFold] *)
Fixpoint EqualFold `{GoLibrary} (s t : str) : bool :=
  match s, t with
  | [], [] => true
  | sr :: s', tr :: t' =>
      if isASCII sr && isASCII tr
      then Ascii.eqb (asciiUpper sr) (asciiUpper tr) && EqualFold s' t'
      else unicodeEqualFold s t
  | _, _ => false
  end.

(** ** The [strconv] package *)

(** [strconv.Itoa] *)
Definition Itoa (n : Z) : str :=
  lit (DecimalString.NilZero.string_of_int (Z.to_int n)).

(** [strconv.FormatInt(n, 16)] *)
Definition FormatInt16 (n : Z) : str :=
  lit (HexadecimalString.NilZero.string_of_int (Z.to_hex_int n)).

Definition digitVal (c : ascii) : option Z :=
  let n := byteOf c in
  if ((48 <=? n) && (n <=? 57))%N then Some (Z.of_N n - 48) else None.

Fixpoint digitsVal (s : str) (acc : Z) : option Z :=
  match s with
  | [] => Some acc
  | c :: r =>
      match digitVal c with
      | Some d => digitsVal r (acc * 10 + d)
      | None => None
      end
  end.

(** [strconv.Atoi]: an optional sign and at least one decimal digit;
    [None] is a returned error.  The range error on texts beyond the [int]
    range is left out: the one caller discards every value outside 0..32. *)
Definition Atoi (s : str) : option Z :=
  match s with
  | [] => None
  | c :: r =>
      if Ascii.eqb c "-" then (if isEmpty r then None else Z.opp <$> digitsVal r 0)
      else if Ascii.eqb c "+" then (if isEmpty r then None else digitsVal r 0)
      else digitsVal s 0
  end.

(** ** The [net] package *)

(** [net.IP]: a byte slice of length 4 or 16. *)
Definition IP := list Z.

Definition v4InV6Prefix : list Z := [0; 0; 0; 0; 0; 0; 0; 0; 0; 0; 255; 255].

(** [net.IPv4(a, b, c, d)] *)
Definition IPv4 (a b c d : Z) : IP := v4InV6Prefix ++ [a; b; c; d].

(** [ip.To4()] *)
Definition To4 (ip : IP) : option IP :=
  if bool_decide (length ip = 4%nat) then Some ip
  else if bool_decide (length ip = 16%nat)
          && bool_decide (take 12 ip = v4InV6Prefix)
       then Some (drop 12 ip)
       else None.

(** [net.IPv4(a, b, c, d).String()]: the dotted form. *)
Definition IPv4String (a b c d : Z) : str :=
  Itoa a ++ lit "." ++ Itoa b ++ lit "." ++ Itoa c ++ lit "." ++ Itoa d.

(** One field of a dotted address: decimal digits, no leading zero, at most
    255. *)
Definition parseOctet (f : str) : option Z :=
  match f with
  | [] => None
  | c :: r =>
      if Ascii.eqb c "0" && negb (isEmpty r) then None
      else match digitsVal f 0 with
           | Some n => if n <=? 255 then Some n else None
           | None => None
           end
  end.

Definition parseIPv4 (s : str) : option IP :=
  match Split s "." with
  | [f0; f1; f2; f3] =>
      match parseOctet f0, parseOctet f1, parseOctet f2, parseOctet f3 with
      | Some a, Some b, Some c, Some d => Some (IPv4 a b c d)
      | _, _, _, _ => None
      end
  | _ => None
  end.

(** [net.ParseIP]: the first dot or colon selects the parser. *)
Fixpoint firstSeparator (s : str) : option ascii :=
  match s with
  | [] => None
  | c :: r =>
      if Ascii.eqb c "." || Ascii.eqb c ":" then Some c else firstSeparator r
  end.

Definition ParseIP `{GoLibrary} (s : str) : option IP :=
  match firstSeparator s with
  | Some c => if Ascii.eqb c "." then parseIPv4 s else parseIPv6 s
  | None => None
  end.

(** ** [main.go]: the pure functions *)

Record DeviceConfig := {
  ID : str;
  IP_ : str;
  Port : str
}.

Definition emptyConfig : DeviceConfig := {| ID := []; IP_ := []; Port := [] |}.

(** The body of the [for _, p := range parts] loop of [parseConfig]. *)
Definition parseConfigPart `{GoLibrary} (cfg : DeviceConfig) (p : str) : DeviceConfig :=
  match SplitN2 p "=" with
  | [k0; v0] =>
      let k := ToUpper (TrimSpace k0) in
      let v := TrimSpace v0 in
      if eqStr k (lit "ID") then {| ID := v; IP_ := IP_ cfg; Port := Port cfg |}
      else if eqStr k (lit "IP") then {| ID := ID cfg; IP_ := v; Port := Port cfg |}
      else if eqStr k (lit "PORT") then {| ID := ID cfg; IP_ := IP_ cfg; Port := v |}
      else cfg
  | _ => cfg
  end.

Definition parseConfig `{GoLibrary} (s : str) : DeviceConfig :=
  let up := if HasPrefix (ToUpper s) (lit "CFG|") then drop 4 s else s in
  fold_left parseConfigPart (Split up "|") emptyConfig.

(** The network fields of a CFG payload, as [parseNetKV] returns them. *)
Record NetKV := {
  kvIP : str;
  kvMask : str;
  kvGW : str;
  kvDNS : str
}.

Definition emptyNetKV : NetKV := {| kvIP := []; kvMask := []; kvGW := []; kvDNS := [] |}.

(** The body of the loop of [parseNetKV]. *)
Definition parseNetKVPart `{GoLibrary} (r : NetKV) (p : str) : NetKV :=
  match SplitN2 p "=" with
  | [k0; v0] =>
      let k := ToUpper (TrimSpace k0) in
      let v := TrimSpace v0 in
      if eqStr k (lit "IP") then {| kvIP := v; kvMask := kvMask r; kvGW := kvGW r; kvDNS := kvDNS r |}
      else if eqStr k (lit "MASK") then {| kvIP := kvIP r; kvMask := v; kvGW := kvGW r; kvDNS := kvDNS r |}
      else if eqStr k (lit "GW") then {| kvIP := kvIP r; kvMask := kvMask r; kvGW := v; kvDNS := kvDNS r |}
      else if eqStr k (lit "DNS") then {| kvIP := kvIP r; kvMask := kvMask r; kvGW := kvGW r; kvDNS := v |}
      else r
  | _ => r
  end.

Definition parseNetKV `{GoLibrary} (s : str) : NetKV :=
  let rest := match Index s "|" with
              | Some idx => drop (S idx) s
              | None => s
              end in
  fold_left parseNetKVPart (Split rest "|") emptyNetKV.

Definition hasDHCPFlag `{GoLibrary} (s : str) : bool :=
  let up := ToUpper s in
  Contains up (lit "DHCP=1") || Contains up (lit "DHCP=YES") || Contains up (lit "DHCP=TRUE").

(** The inner loop of [maskToPrefix]: bits [i-1] down to [0] of [b], stopping
    at the first zero bit. *)
Fixpoint leadingOnesFrom (b : Z) (i : nat) : Z :=
  match i with
  | O => 0
  | S j => if Z.testbit b (Z.of_nat j) then 1 + leadingOnesFrom b j else 0
  end.

Definition maskToPrefix `{GoLibrary} (mask : str) : Z :=
  match ParseIP (TrimSpace mask) with
  | None => 0
  | Some ip =>
      match To4 ip with
      | None => 0
      | Some m => fold_left (fun count b => count + leadingOnesFrom b 8) m 0
      end
  end.

(** [byte(x)] *)
Definition byte (x : Z) : Z := Z.land x 255.

(** [prefixToMask]; the shift is on [uint32].  (For [pfx > 32] the shift
    count is negative and Go panics; the one caller checks [0 <= pfx <= 32].) *)
Definition prefixToMask (pfx : Z) : str :=
  if pfx =? 0 then lit "0.0.0.0"
  else
    let m := Z.shiftl (2 ^ 32 - 1) (32 - pfx) mod 2 ^ 32 in
    IPv4String (byte (Z.shiftr m 24)) (byte (Z.shiftr m 16)) (byte (Z.shiftr m 8)) (byte m).

Definition isIPv4 `{GoLibrary} (s : str) : bool :=
  match ParseIP (TrimSpace s) with
  | Some ip => bool_decide (is_Some (To4 ip))
  | None => false
  end.

(** The test [strings.HasPrefix(t, "[") && strings.HasSuffix(t, "]")] on a
    trimmed line. *)
Definition isSectionHeader (l : str) : bool :=
  let t := TrimSpace l in HasPrefix t (lit "[") && HasSuffix t (lit "]").

Definition hasKey (keyPrefix l : str) : bool := HasPrefix (TrimSpace l) keyPrefix.

Definition upsertInSection (lines : list str) (section keyPrefix newLine : str) : list str :=
  if isEmpty newLine then lines
  else
    (* find the section range *)
    let '(lines, start, end_) :=
      match list_find (fun l => TrimSpace l = section) lines with
      | None =>
          (* append the section if missing *)
          let lines' := lines ++ [[]; section] in
          (lines', (length lines' - 1)%nat, length lines')
      | Some (start, _) =>
          (lines, start,
           match list_find (fun l => isSectionHeader l = true) (drop (S start) lines) with
           | Some (j, _) => (S start + j)%nat
           | None => length lines
           end)
      end in
    (* search the key within the section *)
    match list_find (fun l => hasKey keyPrefix l = true)
                    (take (end_ - S start) (drop (S start) lines)) with
    | Some (j, _) => <[(S start + j)%nat := newLine]> lines
    | None =>
        if bool_decide (end_ = length lines) then lines ++ [newLine]
        else take end_ lines ++ newLine :: drop end_ lines
    end.

(** The [Address=] line [applySystemdNetworkConfig] builds. *)
Definition staticAddrLine `{GoLibrary} (ip mask : str) : str :=
  if isEmpty ip then []
  else if isEmpty mask then lit "Address=" ++ ip
  else
    let pfx := maskToPrefix mask in
    if pfx >? 0 then lit "Address=" ++ ip ++ lit "/" ++ Itoa pfx
    else lit "Address=" ++ ip.

Definition hasNetwork (lines : list str) : bool :=
  existsb (fun l => eqStr (TrimSpace l) (lit "[Network]")) lines.

(** The rewrite [applySystemdNetworkConfig] performs between reading and
    writing the file: on the lines of the file. *)
Definition staticLines `{GoLibrary} (lines : list str) (ip mask gw dns : str) : list str :=
  let lines := if hasNetwork lines then lines else lines ++ [[]; lit "[Network]"] in
  let addrLine := staticAddrLine ip mask in
  let gwLine := if isEmpty gw then [] else lit "Gateway=" ++ gw in
  let dnsLine := if isEmpty dns then [] else lit "DNS=" ++ dns in
  let lines := upsertInSection lines (lit "[Network]") (lit "Address=") addrLine in
  let lines := upsertInSection lines (lit "[Network]") (lit "Gateway=") gwLine in
  let lines := upsertInSection lines (lit "[Network]") (lit "DNS=") dnsLine in
  upsertInSection lines (lit "[Network]") (lit "DHCP=") (lit "DHCP=no").

(** [generateUniqueID]: the loop that copies four bytes at a time and
    writes a dash between the groups. *)
Fixpoint dashEvery4 (padded : str) : str :=
  match padded with
  | a :: b :: c :: d :: ((_ :: _) as rest) => a :: b :: c :: d :: "-"%char :: dashEvery4 rest
  | _ => padded
  end.

Definition generateUniqueID `{GoLibrary} (ts : Z) : str :=
  let hex := ToUpper (FormatInt16 ts) in
  let padded := lit "0" ++ hex in
  dashEvery4 padded.

(** ** The operating system *)

(** The files the agent writes. *)
Inductive File :=
  | UniqueIDFile                 (* /etc/unique_ID *)
  | HostnameFile                 (* /etc/hostname *)
  | DeviceConfigFile             (* ./device_config.json *)
  | NetworkFile (name : str).    (* /etc/systemd/network/<name> *)

(** The calls of the CFG branch, recorded in the order they are made (a
    ghost trace: the program keeps no such record). *)
Inductive Call :=
  | CallSaveConfig (cfg : DeviceConfig)
  | CallApplyDHCP
  | CallApplyStatic (ip mask gw dns : str).

Record World := {
  (** the files of /etc/systemd/network with their contents, in the order
      of their names (the order [filepath.Glob] lists them in) *)
  netDir : list (str * str);
  (** what [defaultIfaceFromProcRoute] returns *)
  routeIface : str;
  (** the content of /etc/unique_ID, [None] when it cannot be read *)
  uniqueID : option str;
  hostname : option str;
  (** the record ./device_config.json decodes to, [None] when it cannot be
      read (the JSON text itself is not modelled) *)
  deviceConfig : option DeviceConfig;
  (** [time.Now().UnixMilli()] *)
  unixMilli : Z;
  (** whether [os.WriteFile] to a file succeeds; a failed write is taken to
      leave the file as it was *)
  writeOK : File -> bool;
  (** [restartHost]: the text of the error, [None] on success *)
  rebootError : option str;
  (** the live sources [getNetworkParams] falls back to *)
  liveIPMask : str * str;
  liveGateway : str;
  liveDNS : str;
  (** what [ifaceName] returns *)
  liveIface : str;
  calls : list Call
}.

Definition setNetDir (w : World) (d : list (str * str)) : World :=
  {| netDir := d; routeIface := routeIface w; uniqueID := uniqueID w;
     hostname := hostname w; deviceConfig := deviceConfig w; unixMilli := unixMilli w;
     writeOK := writeOK w; rebootError := rebootError w; liveIPMask := liveIPMask w;
     liveGateway := liveGateway w; liveDNS := liveDNS w; liveIface := liveIface w;
     calls := calls w |}.

Definition setUniqueID (w : World) (c : option str) : World :=
  {| netDir := netDir w; routeIface := routeIface w; uniqueID := c;
     hostname := hostname w; deviceConfig := deviceConfig w; unixMilli := unixMilli w;
     writeOK := writeOK w; rebootError := rebootError w; liveIPMask := liveIPMask w;
     liveGateway := liveGateway w; liveDNS := liveDNS w; liveIface := liveIface w;
     calls := calls w |}.

Definition setHostname (w : World) (c : option str) : World :=
  {| netDir := netDir w; routeIface := routeIface w; uniqueID := uniqueID w;
     hostname := c; deviceConfig := deviceConfig w; unixMilli := unixMilli w;
     writeOK := writeOK w; rebootError := rebootError w; liveIPMask := liveIPMask w;
     liveGateway := liveGateway w; liveDNS := liveDNS w; liveIface := liveIface w;
     calls := calls w |}.

Definition setDeviceConfig (w : World) (c : option DeviceConfig) : World :=
  {| netDir := netDir w; routeIface := routeIface w; uniqueID := uniqueID w;
     hostname := hostname w; deviceConfig := c; unixMilli := unixMilli w;
     writeOK := writeOK w; rebootError := rebootError w; liveIPMask := liveIPMask w;
     liveGateway := liveGateway w; liveDNS := liveDNS w; liveIface := liveIface w;
     calls := calls w |}.

Definition logCall (w : World) (c : Call) : World :=
  {| netDir := netDir w; routeIface := routeIface w; uniqueID := uniqueID w;
     hostname := hostname w; deviceConfig := deviceConfig w; unixMilli := unixMilli w;
     writeOK := writeOK w; rebootError := rebootError w; liveIPMask := liveIPMask w;
     liveGateway := liveGateway w; liveDNS := liveDNS w; liveIface := liveIface w;
     calls := calls w ++ [c] |}.

(** Byte-wise order of file names. *)
Fixpoint strLtb (a b : str) : bool :=
  match a, b with
  | _, [] => false
  | [], _ :: _ => true
  | x :: a', y :: b' =>
      (byteOf x <? byteOf y)%N || ((byteOf x =? byteOf y)%N && strLtb a' b')
  end.

Fixpoint getFile (name : str) (dir : list (str * str)) : option str :=
  match dir with
  | [] => None
  | (n, c) :: rest => if eqStr n name then Some c else getFile name rest
  end.

(** The content of the file [name] replaced where the file stands. *)
Fixpoint replaceFile (name content : str) (dir : list (str * str)) : list (str * str) :=
  match dir with
  | [] => []
  | (n, c) :: rest =>
      if eqStr n name then (n, content) :: rest
      else (n, c) :: replaceFile name content rest
  end.

(** A new file entered at its place in the order of names. *)
Fixpoint insertFile (name content : str) (dir : list (str * str)) : list (str * str) :=
  match dir with
  | [] => [(name, content)]
  | (n, c) :: rest =>
      if strLtb name n then (name, content) :: dir
      else (n, c) :: insertFile name content rest
  end.

(** Writing the file [name] of the directory. *)
Definition putFile (name content : str) (dir : list (str * str)) : list (str * str) :=
  match getFile name dir with
  | Some _ => replaceFile name content dir
  | None => insertFile name content dir
  end.

(** [os.WriteFile] to a file of /etc/systemd/network; [true] is [err == nil]. *)
Definition writeNetworkFile (w : World) (name content : str) : bool * World :=
  if writeOK w (NetworkFile name)
  then (true, setNetDir w (putFile name content (netDir w)))
  else (false, w).

(** The names [filepath.Glob] returns for "eth*.network" and "*.network". *)
Definition matchEthNetwork (name : str) : bool :=
  HasPrefix name (lit "eth") && HasSuffix name (lit ".network")
  && (11 <=? length name)%nat.

Definition matchAnyNetwork (name : str) : bool := HasSuffix name (lit ".network").

Definition Glob (pattern : str -> bool) (w : World) : list (str * str) :=
  filter (fun f => pattern f.1 = true) (netDir w).

(** The interface name both apply functions fall back to. *)
Definition ethIface (w : World) : str :=
  let iface := routeIface w in
  if isEmpty iface || negb (HasPrefix iface (lit "eth")) then lit "eth0" else iface.

Definition applySystemdNetworkConfig `{GoLibrary} (w : World) (ip mask gw dns : str)
  : bool * World :=
  let matches := Glob matchEthNetwork w in
  let path := match matches with
              | (name, _) :: _ => name
              | [] => ethIface w ++ lit ".network"
              end in
  (* read the existing content if present, else a minimal template *)
  let lines := match getFile path (netDir w) with
               | Some b => Split b "010"
               | None => [lit "[Match]"; lit "Name=" ++ ethIface w; []; lit "[Network]"]
               end in
  let content := Join (staticLines lines ip mask gw dns) ["010"%char] in
  writeNetworkFile w path content.

Definition applySystemdNetworkDHCP (w : World) : bool * World :=
  let matches := Glob matchEthNetwork w in
  let '(path, iface) :=
    match matches with
    | (name, _) :: _ =>
        (name, if HasPrefix name (lit "eth") then TrimSuffix name (lit ".network") else [])
    | [] => (ethIface w ++ lit ".network", ethIface w)
    end in
  let lines := [lit "[Match]"; lit "Name=" ++ iface; []; lit "[Network]"; lit "DHCP=yes"] in
  writeNetworkFile w path (Join lines ["010"%char]).

Definition ensureUniqueID `{GoLibrary} (w : World) : str * bool * World :=
  let stored := match uniqueID w with
                | Some b => TrimSpace b
                | None => []
                end in
  if negb (isEmpty stored) then (stored, true, w)
  else
    let id := generateUniqueID (unixMilli w) in
    if writeOK w UniqueIDFile then
      let w := setUniqueID w (Some id) in
      (* the host name is written as well; a failure there is only logged *)
      let w := if writeOK w HostnameFile then setHostname w (Some (lit "Kan-" ++ id)) else w in
      (id, true, w)
    else (id, false, w).

(** [saveConfig]: the stored record with the non-empty fields of [cfg]
    written over it. *)
Definition mergeConfig (existing cfg : DeviceConfig) : DeviceConfig :=
  {| ID := if isEmpty (ID cfg) then ID existing else ID cfg;
     IP_ := if isEmpty (IP_ cfg) then IP_ existing else IP_ cfg;
     Port := if isEmpty (Port cfg) then Port existing else Port cfg |}.

Definition saveConfig (w : World) (cfg : DeviceConfig) : bool * World :=
  let existing := default emptyConfig (deviceConfig w) in
  if writeOK w DeviceConfigFile
  then (true, setDeviceConfig w (Some (mergeConfig existing cfg)))
  else (false, w).

(** ** Reading the network parameters back *)

(** The body of the loop over the lines of one file in [parseNetworkFiles];
    the state is [(addrCIDR, gw, dns)]. *)
Definition scanNetworkLine `{GoLibrary} (st : str * str * str) (line : str)
  : str * str * str :=
  let '(addrCIDR, gw, dns) := st in
  let s := TrimSpace line in
  if isEmpty s || HasPrefix s (lit "#") then st
  else if HasPrefix s (lit "Address=")
  then (TrimSpace (TrimPrefix s (lit "Address=")), gw, dns)
  else if HasPrefix s (lit "Gateway=")
  then (addrCIDR, TrimSpace (TrimPrefix s (lit "Gateway=")), dns)
  else if HasPrefix s (lit "DNS=")
  then
    let dnsVal := TrimSpace (TrimPrefix s (lit "DNS=")) in
    match find isIPv4 (Fields dnsVal) with
    | Some d => (addrCIDR, gw, d)
    | None => st
    end
  else st.

(** What [parseNetworkFiles] reads from the content of one file. *)
Definition parseNetworkFile `{GoLibrary} (b : str) : NetKV :=
  let '(addrCIDR, gw, dns) := fold_left scanNetworkLine (Split b "010") ([], [], []) in
  let '(ip, mask) :=
    if isEmpty addrCIDR then ([], [])
    else
      match Split addrCIDR "/" with
      | [a; p] =>
          let ipCandidate := TrimSpace a in
          if isIPv4 ipCandidate
          then (ipCandidate,
                match Atoi p with
                | Some pfx => if (0 <=? pfx) && (pfx <=? 32) then prefixToMask pfx else []
                | None => []
                end)
          else ([], [])
      | _ => if isIPv4 addrCIDR then (addrCIDR, []) else ([], [])
      end in
  {| kvIP := ip; kvMask := mask; kvGW := gw; kvDNS := dns |}.

Definition allEmpty (r : NetKV) : bool :=
  isEmpty (kvIP r) && isEmpty (kvMask r) && isEmpty (kvGW r) && isEmpty (kvDNS r).

(** [parseNetworkFiles] on the files a pattern matches: the first file that
    yields anything is returned. *)
Fixpoint parseNetworkFiles `{GoLibrary} (matches : list (str * str)) : NetKV :=
  match matches with
  | [] => emptyNetKV
  | (_, b) :: rest =>
      let r := parseNetworkFile b in
      if allEmpty r then parseNetworkFiles rest else r
  end.

Definition getNetworkParams `{GoLibrary} (w : World) : NetKV :=
  let r := parseNetworkFiles (Glob matchEthNetwork w) in
  let r := if allEmpty r then parseNetworkFiles (Glob matchAnyNetwork w) else r in
  let '(ip2, mask2) := liveIPMask w in
  {| kvIP := if isEmpty (kvIP r) then ip2 else kvIP r;
     kvMask := if isEmpty (kvMask r) then mask2 else kvMask r;
     kvGW := if isEmpty (kvGW r) then liveGateway w else kvGW r;
     kvDNS := if isEmpty (kvDNS r) then liveDNS w else kvDNS r |}.

(** ** The dispatcher: one iteration of the loop of [main] *)

Record Env := {
  port : str;       (* UDP_PORT, or "60000" *)
  deviceID : str    (* DEVICE_ID, or "HOST-" and the host name *)
}.

Inductive Command :=
  | CmdTF | CmdGetID | CmdQuery | CmdCFG | CmdRestart | CmdUnknown.

(** The [switch] of [main]: the first case that holds. *)
Definition classify `{GoLibrary} (msg : str) : Command :=
  if EqualFold msg (lit "TF") then CmdTF
  else if EqualFold msg (lit "GET_ID") then CmdGetID
  else if EqualFold msg (lit "QUERY") || EqualFold msg (lit "QRY")
          || EqualFold msg (lit "QUERY_NET") || EqualFold msg (lit "QRY_NET")
          || EqualFold msg (lit "NET") || EqualFold msg (lit "GET_NET") then CmdQuery
  else if HasPrefix (ToUpper msg) (lit "CFG|") then CmdCFG
  else if EqualFold msg (lit "RESTART") then CmdRestart
  else CmdUnknown.

(** The CFG branch. *)
Definition handleCFG `{GoLibrary} (env : Env) (w : World) (msg : str) : str * World :=
  let cfg := parseConfig msg in
  let cfg := if isEmpty (ID cfg)
             then {| ID := deviceID env; IP_ := IP_ cfg; Port := Port cfg |}
             else cfg in
  let '(saved, w) := saveConfig (logCall w (CallSaveConfig cfg)) cfg in
  if negb saved then (lit "CFG_NACK|ERR=SAVE_FAILED", w)
  else if hasDHCPFlag msg then
    let '(ok, w) := applySystemdNetworkDHCP (logCall w CallApplyDHCP) in
    if ok then (lit "CFG_ACK|ID=" ++ ID cfg ++ lit "|NET_ACK", w)
    else (lit "CFG_ACK|ID=" ++ ID cfg ++ lit "|NET_NACK", w)
  else
    let kv := parseNetKV msg in
    if negb (allEmpty kv) then
      let '(ok, w) :=
        applySystemdNetworkConfig
          (logCall w (CallApplyStatic (kvIP kv) (kvMask kv) (kvGW kv) (kvDNS kv)))
          (kvIP kv) (kvMask kv) (kvGW kv) (kvDNS kv) in
      if ok then (lit "CFG_ACK|ID=" ++ ID cfg ++ lit "|NET_ACK", w)
      else (lit "CFG_ACK|ID=" ++ ID cfg ++ lit "|NET_NACK", w)
    else (lit "CFG_ACK|ID=" ++ ID cfg, w).

(** The reply to one datagram and the world it leaves. *)
Definition respond `{GoLibrary} (env : Env) (w : World) (datagram : str) : str * World :=
  let msg := TrimSpace datagram in
  match classify msg with
  | CmdTF =>
      let '(uid, _, w) := ensureUniqueID w in
      (lit "TF|ID=" ++ uid ++ lit "|PORT=" ++ port env, w)
  | CmdGetID =>
      let '(id, _, w) := ensureUniqueID w in
      (lit "ID=" ++ id, w)
  | CmdQuery =>
      let r := getNetworkParams w in
      let field k v := if isEmpty v then [] else [lit k ++ v] in
      let ifn := if isEmpty (liveIface w) then lit "eth0" else liveIface w in
      let parts := [lit "NET"] ++ field "IP=" (kvIP r) ++ field "MASK=" (kvMask r)
                   ++ field "GW=" (kvGW r) ++ field "DNS=" (kvDNS r)
                   ++ [lit "IF=" ++ ifn; lit "IFACE=" ++ ifn] in
      (Join parts (lit "|"), w)
  | CmdCFG => handleCFG env w msg
  | CmdRestart =>
      match rebootError w with
      | Some e => (lit "RESTART_NACK|ERR=" ++ ReplaceAll e "|" ":", w)
      | None => (lit "RESTART_ACK", w)
      end
  | CmdUnknown => (lit "UNKNOWN_CMD", w)
  end.

(** ** [cmd/discover_gui/main.go]: the client *)

Definition buildNetCfg (ip mask gw dns : str) : str :=
  let field k v := if isEmpty (TrimSpace v) then [] else [lit k ++ TrimSpace v] in
  Join ([lit "CFG"] ++ field "IP=" ip ++ field "MASK=" mask
        ++ field "GW=" gw ++ field "DNS=" dns) (lit "|").

(** The test [sendCfgAndWaitAck] applies to a datagram of the target. *)
Definition cfgAckAccepted `{GoLibrary} (payload : str) : bool :=
  let msg := TrimSpace payload in
  HasPrefix (ToUpper msg) (lit "CFG_ACK").

(** The tests [sendRestartAndWaitAck] applies to a datagram of the target. *)
Definition restartAckAccepted `{GoLibrary} (payload : str) : bool :=
  let up := ToUpper (TrimSpace payload) in
  Contains up (lit "RESTART_ACK")
  || (HasPrefix up (lit "CFG_ACK") && Contains up (lit "RESTART_ACK")).

(** The read loop of [sendCfgAndWaitAck] after the request is sent.
    [incoming] lists the datagrams that arrive before the deadline, each
    with the address of its sender; when they are used up [ReadFromUDP]
    returns the deadline error, which is [None]. *)
Fixpoint sendCfgAndWaitAck `{GoLibrary} (ip : str) (incoming : list (str * str))
  : option str :=
  match incoming with
  | [] => None
  | (from, payload) :: rest =>
      if negb (eqStr from ip) then sendCfgAndWaitAck ip rest
      else if cfgAckAccepted payload then Some (TrimSpace payload)
      else sendCfgAndWaitAck ip rest
  end.

(** The read loop of [sendRestartAndWaitAck]. *)
Fixpoint sendRestartAndWaitAck `{GoLibrary} (ip : str) (incoming : list (str * str))
  : option str :=
  match incoming with
  | [] => None
  | (from, payload) :: rest =>
      if negb (eqStr from ip) then sendRestartAndWaitAck ip rest
      else if restartAckAccepted payload then Some (TrimSpace payload)
      else sendRestartAndWaitAck ip rest
  end.

(** ** Vocabulary of the statements *)

(** An ASCII byte that is not white space. *)
Definition plainByte (c : ascii) : bool := isASCII c && negb (asciiSpace c).

(** The count of leading one-bits of a 32-bit value: the bits are read from
    bit 31 down and the count stops at the first zero bit. *)
Definition leadingOneBits32 (m : Z) : Z := leadingOnesFrom m 32.

(** The 32-bit value a dotted mask denotes. *)
Definition dottedValue `{GoLibrary} (mask : str) : option Z :=
  match ParseIP mask with
  | Some ip =>
      match To4 ip with
      | Some [a; b; c; d] => Some (a * 2 ^ 24 + b * 2 ^ 16 + c * 2 ^ 8 + d)
      | _ => None
      end
  | None => None
  end.

(** The two failure replies of the agent. *)
Definition saveFailedReply : str := lit "CFG_NACK|ERR=SAVE_FAILED".

Definition restartNack (err : str) : str :=
  lit "RESTART_NACK|ERR=" ++ ReplaceAll err "|" ":".

(** A world and an environment for the examples: no network file yet, a
    default route over eth1, no identity file, every write succeeds. *)
Definition sampleWorld : World :=
  {| netDir := []; routeIface := lit "eth1"; uniqueID := None; hostname := None;
     deviceConfig := None; unixMilli := 1730000000000; writeOK := fun _ => true;
     rebootError := Some (lit "exit status 1");
     liveIPMask := (lit "10.0.0.5", lit "255.0.0.0");
     liveGateway := lit "10.0.0.1"; liveDNS := lit "9.9.9.9"; liveIface := [];
     calls := [] |}.

Definition sampleEnv : Env := {| port := lit "60000"; deviceID := lit "HOST-a" |}.

(** The file of /etc/systemd/network both apply functions write: the first
    match of eth*.network, else the file named after the interface. *)
Definition targetName (w : World) : str :=
  match Glob matchEthNetwork w with
  | (name, _) :: _ => name
  | [] => ethIface w ++ lit ".network"
  end.

(** The configuration the CFG branch saves: the parsed one, with the
    identity of the device where the payload names none. *)
Definition effectiveConfig `{GoLibrary} (env : Env) (msg : str) : DeviceConfig :=
  let cfg := parseConfig msg in
  if isEmpty (ID cfg) then {| ID := deviceID env; IP_ := IP_ cfg; Port := Port cfg |}
  else cfg.

(** The fields of a message as the spec's decoder reads them: every segment
    after the command that holds an [=], cut at the first [=], the key
    trimmed and in upper case, the value trimmed. *)
Definition decodeFields `{GoLibrary} (s : str) : list (str * str) :=
  let rest := match Index s "|" with
              | Some idx => drop (S idx) s
              | None => s
              end in
  flat_map (fun p => match SplitN2 p "=" with
                     | [k; v] => [(ToUpper (TrimSpace k), TrimSpace v)]
                     | _ => []
                     end) (Split rest "|").

(** "A DHCP flag with value 1, yes or true is present (case-insensitive)". *)
Definition dhcpFlagPresent `{GoLibrary} (s : str) : bool :=
  existsb (fun kv : str * str =>
             eqStr kv.1 (lit "DHCP")
             && (eqStr (ToUpper kv.2) (lit "1") || eqStr (ToUpper kv.2) (lit "YES")
                 || eqStr (ToUpper kv.2) (lit "TRUE")))
          (decodeFields s).

(** A string cut into groups of four bytes, the last group holding what
    is left (one to four bytes). *)
Fixpoint groupsOf4 (s : str) : list str :=
  match s with
  | a :: b :: c :: d :: ((_ :: _) as rest) => [a; b; c; d] :: groupsOf4 rest
  | _ => [s]
  end.

(** A byte of a hexadecimal rendering: ASCII, and plain in upper case. *)
Definition hexSafe (c : ascii) : bool := isASCII c && plainByte (asciiUpper c).

(** [upsertInSection] by recursion on the lines: [upsertLines] looks for the
    section header, [upsertBody] works on the lines after it. *)
Fixpoint upsertBody (keyPrefix newLine : str) (rest : list str) : list str :=
  match rest with
  | [] => [newLine]
  | l :: rest' =>
      if isSectionHeader l then newLine :: l :: rest'
      else if hasKey keyPrefix l then newLine :: rest'
      else l :: upsertBody keyPrefix newLine rest'
  end.

Fixpoint upsertLines (section keyPrefix newLine : str) (lines : list str) : list str :=
  match lines with
  | [] => [[]; section; newLine]
  | l :: rest =>
      if bool_decide (TrimSpace l = section) then l :: upsertBody keyPrefix newLine rest
      else l :: upsertLines section keyPrefix newLine rest
  end.

(** The index computation of [upsertInSection] on the lines after the
    header. *)
Definition upsertTail (keyPrefix newLine : str) (rest : list str) : list str :=
  let j := match list_find (fun l => isSectionHeader l = true) rest with
           | Some (j, _) => j
           | None => length rest
           end in
  match list_find (fun l => hasKey keyPrefix l = true) (take j rest) with
  | Some (i, _) => <[i := newLine]> rest
  | None => take j rest ++ newLine :: drop j rest
  end.

(** The lines a section holds: those after its header, up to the next header. *)
Fixpoint bodyLines (rest : list str) : list str :=
  match rest with
  | [] => []
  | l :: rest' => if isSectionHeader l then [] else l :: bodyLines rest'
  end.

(** The lines below the header of a section (none when the header is
    missing). *)
Fixpoint afterHeader (section : str) (lines : list str) : list str :=
  match lines with
  | [] => []
  | l :: rest => if bool_decide (TrimSpace l = section) then rest
                 else afterHeader section rest
  end.

Definition sectionBody (section : str) (lines : list str) : list str :=
  bodyLines (afterHeader section lines).

Definition countKey (keyPrefix : str) (ls : list str) : nat :=
  length (filter (fun l => hasKey keyPrefix l = true) ls).

Definition sectionSplit (section : str) (lines pre : list str) (hdr : str)
    (body post : list str) : Prop :=
  lines = pre ++ hdr :: body ++ post
  /\ Forall (fun l => TrimSpace l <> section) pre
  /\ TrimSpace hdr = section
  /\ Forall (fun l => isSectionHeader l = false) body
  /\ match post with
     | [] => True
     | next :: _ => isSectionHeader next = true
     end.

Inductive upsertedBody (keyPrefix newLine : str) : list str -> list str -> Prop :=
  | body_replaced b1 old b2 :
      Forall (fun l => hasKey keyPrefix l = false) b1 ->
      hasKey keyPrefix old = true ->
      upsertedBody keyPrefix newLine (b1 ++ old :: b2) (b1 ++ newLine :: b2)
  | body_appended body :
      Forall (fun l => hasKey keyPrefix l = false) body ->
      upsertedBody keyPrefix newLine body (body ++ [newLine]).

(** The keys [staticLines] upserts. *)
Definition staticKeys : list str :=
  [lit "Address="; lit "Gateway="; lit "DNS="; lit "DHCP="].

(** A line whose trimmed text starts with the key. *)
Definition trimsTo (k l : str) : Prop := exists r, TrimSpace l = k ++ r.

(** The four upserts of [staticLines] on the lines after the [[Network]]
    header. *)
Definition upsertBodyOpt (keyPrefix newLine : str) (rest : list str) : list str :=
  if isEmpty newLine then rest else upsertBody keyPrefix newLine rest.

Definition staticBody `{GoLibrary} (ip mask gw dns : str) (rest : list str) : list str :=
  upsertBody (lit "DHCP=") (lit "DHCP=no")
    (upsertBodyOpt (lit "DNS=") (if isEmpty dns then [] else lit "DNS=" ++ dns)
       (upsertBodyOpt (lit "Gateway=") (if isEmpty gw then [] else lit "Gateway=" ++ gw)
          (upsertBodyOpt (lit "Address=") (staticAddrLine ip mask) rest))).

(** A decimal digit. *)
Definition isDigit (c : ascii) : bool := ((48 <=? byteOf c) && (byteOf c <=? 57))%N.

(** A non-empty run of decimal digits. *)
Definition decimalOK (s : str) : bool := forallb isDigit s && negb (isEmpty s).

(** A byte of a dotted address or of a decimal number: a plain byte that
    is no slash, no colon and no line break. *)
Definition addrByte (c : ascii) : bool := isDigit c || Ascii.eqb c ".".

(** What [parseNetworkFiles] keeps of an [Address=] line. *)
Definition addrPayload (l : str) : str :=
  TrimSpace (TrimPrefix (TrimSpace l) (lit "Address=")).

(** The lines the rewrite of a static configuration starts from. *)
Definition startLines (w : World) : list str :=
  match getFile (targetName w) (netDir w) with
  | Some b => Split b "010"
  | None => [lit "[Match]"; lit "Name=" ++ ethIface w; []; lit "[Network]"]
  end.

(* ===================================================================== *)
(** * Part II.  Properties                                                *)
(* ===================================================================== *)

(** ** White space *)

Lemma plain_not_space c : plainByte c = true -> asciiSpace c = false.
Proof. unfold plainByte. destruct (asciiSpace c); [rewrite andb_false_r|]; done. Qed.

Lemma plain_space2_l c d : isASCII c = true -> space2 c d = false.
Proof.
  unfold isASCII, space2. intros Hc%N.ltb_lt.
  destruct (N.eqb_spec (byteOf c) 194); [lia|done].
Qed.

Lemma plain_space2_r c d : isASCII d = true -> space2 c d = false.
Proof.
  unfold isASCII, space2. intros Hc%N.ltb_lt.
  destruct (N.eqb_spec (byteOf d) 133); [lia|].
  destruct (N.eqb_spec (byteOf d) 160); [lia|].
  by rewrite andb_false_r.
Qed.

Lemma plain_space3_l c d e : isASCII c = true -> space3 c d e = false.
Proof.
  unfold isASCII, space3. intros Hc%N.ltb_lt. cbv zeta.
  destruct (N.eqb_spec (byteOf c) 225); [lia|].
  destruct (N.eqb_spec (byteOf c) 226); [lia|].
  destruct (N.eqb_spec (byteOf c) 227); [lia|]. done.
Qed.

Lemma plain_space3_r c d e : isASCII e = true -> space3 c d e = false.
Proof.
  unfold isASCII, space3. intros Hc%N.ltb_lt. cbv zeta.
  repeat match goal with
  | |- context [N.eqb (byteOf e) ?k] => destruct (N.eqb_spec (byteOf e) k); [lia|]
  | |- context [N.leb ?k (byteOf e)] => destruct (N.leb_spec k (byteOf e)); [lia|]
  end.
  by rewrite ?andb_false_r.
Qed.

Lemma str_ind3 {A} (P : list A -> Prop) :
  (forall s, (forall t, (length t < length s)%nat -> P t) -> P s) -> forall s, P s.
Proof.
  intros Hstep s. remember (length s) as n eqn:Hn.
  revert s Hn. induction (lt_wf n) as [n _ IH]. intros s ->.
  apply Hstep. intros t Ht. by apply (IH (length t)).
Qed.

Lemma trimLeft_plain c s : plainByte c = true -> trimLeft (c :: s) = c :: s.
Proof.
  intros Hc. pose proof (plain_not_space _ Hc) as Hs.
  apply andb_true_iff in Hc as [Ha _].
  simpl. rewrite Hs. destruct s as [|d [|e s]]; [done| |].
  - by rewrite plain_space2_l.
  - by rewrite plain_space2_l, plain_space3_l.
Qed.

Lemma trimRev_plain c s : plainByte c = true -> trimRev (c :: s) = c :: s.
Proof.
  intros Hc. pose proof (plain_not_space _ Hc) as Hs.
  apply andb_true_iff in Hc as [Ha _].
  simpl. rewrite Hs. destruct s as [|d [|e s]]; [done| |].
  - by rewrite plain_space2_r.
  - by rewrite plain_space2_r, plain_space3_r.
Qed.

Lemma trimLeft_length s : (length (trimLeft s) <= length s)%nat.
Proof.
  induction s as [s IH] using str_ind3.
  destruct s as [|c [|d [|e s]]]; simpl; [lia| | |].
  - destruct (asciiSpace c); simpl; lia.
  - destruct (asciiSpace c); [|destruct (space2 c d)]; simpl; try lia.
    destruct (asciiSpace d); simpl; lia.
  - destruct (asciiSpace c).
    + etrans; [apply (IH (d :: e :: s)); simpl; lia|simpl; lia].
    + destruct (space2 c d).
      * etrans; [apply (IH (e :: s)); simpl; lia|simpl; lia].
      * destruct (space3 c d e); [|simpl; lia].
        etrans; [apply (IH s); simpl; lia|simpl; lia].
Qed.

Lemma trimRev_length s : (length (trimRev s) <= length s)%nat.
Proof.
  induction s as [s IH] using str_ind3.
  destruct s as [|c [|d [|e s]]]; simpl; [lia| | |].
  - destruct (asciiSpace c); simpl; lia.
  - destruct (asciiSpace c); [|destruct (space2 d c)]; simpl; try lia.
    destruct (asciiSpace d); simpl; lia.
  - destruct (asciiSpace c).
    + etrans; [apply (IH (d :: e :: s)); simpl; lia|simpl; lia].
    + destruct (space2 d c).
      * etrans; [apply (IH (e :: s)); simpl; lia|simpl; lia].
      * destruct (space3 e d c); [|simpl; lia].
        etrans; [apply (IH s); simpl; lia|simpl; lia].
Qed.

Lemma plain_space3_m c d e : isASCII d = true -> space3 c d e = false.
Proof.
  unfold isASCII, space3. intros Hc%N.ltb_lt. cbv zeta.
  repeat match goal with
  | |- context [N.eqb (byteOf d) ?k] => destruct (N.eqb_spec (byteOf d) k); [lia|]
  end.
  by rewrite ?andb_false_r.
Qed.

Lemma plain_ascii c : plainByte c = true -> isASCII c = true.
Proof. by intros [? _]%andb_true_iff. Qed.

Ltac plain_simpl :=
  repeat first
    [ rewrite plain_not_space by done
    | rewrite plain_space2_l by (by apply plain_ascii)
    | rewrite plain_space2_r by (by apply plain_ascii)
    | rewrite plain_space3_l by (by apply plain_ascii)
    | rewrite plain_space3_m by (by apply plain_ascii)
    | rewrite plain_space3_r by (by apply plain_ascii) ].

Lemma trimLeft_app_plain l c t :
  plainByte c = true -> trimLeft (l ++ c :: t) = trimLeft l ++ c :: t.
Proof.
  intros Hc. pose proof (trimLeft_plain c t Hc) as Hp. simpl in Hp.
  induction l as [l IH] using str_ind3.
  destruct l as [|x [|y [|z l]]].
  - simpl. by rewrite Hp.
  - simpl. destruct (asciiSpace x) eqn:Hx.
    + by rewrite Hp.
    + plain_simpl. destruct t; by plain_simpl.
  - simpl. destruct (asciiSpace x) eqn:Hx.
    + apply (IH [y]). simpl; lia.
    + destruct (space2 x y) eqn:Hxy; [by rewrite Hp|].
      by plain_simpl.
  - change ((x :: y :: z :: l) ++ c :: t) with (x :: y :: z :: (l ++ c :: t)).
    simpl. destruct (asciiSpace x) eqn:Hx.
    + apply (IH (y :: z :: l)). simpl; lia.
    + destruct (space2 x y) eqn:Hxy; [apply (IH (z :: l)); simpl; lia|].
      destruct (space3 x y z) eqn:Hxyz; [apply (IH l); simpl; lia|done].
Qed.

Lemma trimRev_app_plain l c t :
  plainByte c = true -> trimRev (l ++ c :: t) = trimRev l ++ c :: t.
Proof.
  intros Hc. pose proof (trimRev_plain c t Hc) as Hp. simpl in Hp.
  induction l as [l IH] using str_ind3.
  destruct l as [|x [|y [|z l]]].
  - simpl. by rewrite Hp.
  - simpl. destruct (asciiSpace x) eqn:Hx.
    + by rewrite Hp.
    + plain_simpl. destruct t; by plain_simpl.
  - simpl. destruct (asciiSpace x) eqn:Hx.
    + apply (IH [y]). simpl; lia.
    + destruct (space2 y x) eqn:Hxy; [by rewrite Hp|].
      by plain_simpl.
  - change ((x :: y :: z :: l) ++ c :: t) with (x :: y :: z :: (l ++ c :: t)).
    simpl. destruct (asciiSpace x) eqn:Hx.
    + apply (IH (y :: z :: l)). simpl; lia.
    + destruct (space2 y x) eqn:Hxy; [apply (IH (z :: l)); simpl; lia|].
      destruct (space3 z y x) eqn:Hxyz; [apply (IH l); simpl; lia|done].
Qed.

Lemma trimRight_cons_plain c s :
  plainByte c = true -> trimRight (c :: s) = c :: trimRight s.
Proof.
  intros Hc. unfold trimRight. simpl rev.
  rewrite trimRev_app_plain by done. by rewrite rev_app_distr.
Qed.

Lemma trimRight_app_plain k s :
  forallb plainByte k = true -> trimRight (k ++ s) = k ++ trimRight s.
Proof.
  induction k as [|c k IH]; [done|]. simpl. intros [Hc Hk]%andb_true_iff.
  by rewrite trimRight_cons_plain, IH.
Qed.

Lemma TrimSpace_plain_prefix k s :
  k <> [] -> forallb plainByte k = true -> TrimSpace (k ++ s) = k ++ trimRight s.
Proof.
  intros Hne Hk. unfold TrimSpace. destruct k as [|c k]; [done|].
  simpl in Hk. apply andb_true_iff in Hk as [Hc Hk].
  rewrite <- app_comm_cons, trimLeft_plain by done.
  by rewrite trimRight_cons_plain, trimRight_app_plain.
Qed.

Lemma trimLeft_idem s : trimLeft (trimLeft s) = trimLeft s.
Proof.
  induction s as [s IH] using str_ind3.
  destruct s as [|x [|y [|z s]]]; [done| | |].
  - simpl. destruct (asciiSpace x) eqn:Hx; [done|]. simpl. by rewrite Hx.
  - simpl. destruct (asciiSpace x) eqn:Hx.
    + apply (IH [y]). simpl; lia.
    + destruct (space2 x y) eqn:Hxy; [done|]. simpl. by rewrite Hx, Hxy.
  - simpl. destruct (asciiSpace x) eqn:Hx.
    + apply (IH (y :: z :: s)). simpl; lia.
    + destruct (space2 x y) eqn:Hxy; [apply (IH (z :: s)); simpl; lia|].
      destruct (space3 x y z) eqn:Hxyz; [apply (IH s); simpl; lia|].
      simpl. by rewrite Hx, Hxy, Hxyz.
Qed.

Lemma trimRev_idem s : trimRev (trimRev s) = trimRev s.
Proof.
  induction s as [s IH] using str_ind3.
  destruct s as [|x [|y [|z s]]]; [done| | |].
  - simpl. destruct (asciiSpace x) eqn:Hx; [done|]. simpl. by rewrite Hx.
  - simpl. destruct (asciiSpace x) eqn:Hx.
    + apply (IH [y]). simpl; lia.
    + destruct (space2 y x) eqn:Hxy; [done|]. simpl. by rewrite Hx, Hxy.
  - simpl. destruct (asciiSpace x) eqn:Hx.
    + apply (IH (y :: z :: s)). simpl; lia.
    + destruct (space2 y x) eqn:Hxy; [apply (IH (z :: s)); simpl; lia|].
      destruct (space3 z y x) eqn:Hxyz; [apply (IH s); simpl; lia|].
      simpl. by rewrite Hx, Hxy, Hxyz.
Qed.

Lemma trimRight_idem s : trimRight (trimRight s) = trimRight s.
Proof. unfold trimRight. by rewrite rev_involutive, trimRev_idem. Qed.

Lemma trimRev_suffix s : exists ws, s = ws ++ trimRev s.
Proof.
  induction s as [s IH] using str_ind3.
  destruct s as [|x [|y [|z s]]]; [by exists []| | |].
  - simpl. destruct (asciiSpace x); [by exists [x]|by exists []].
  - destruct (IH [y]) as [ws Hws]; [simpl; lia|].
    simpl in *. destruct (asciiSpace x).
    + exists (x :: ws). simpl. by f_equal.
    + destruct (space2 y x); [by exists [x; y]|by exists []].
  - destruct (IH (y :: z :: s)) as [ws1 Hws1]; [simpl; lia|].
    destruct (IH (z :: s)) as [ws2 Hws2]; [simpl; lia|].
    destruct (IH s) as [ws3 Hws3]; [simpl; lia|].
    simpl in *. destruct (asciiSpace x).
    + exists (x :: ws1). simpl. by f_equal.
    + destruct (space2 y x).
      * exists (x :: y :: ws2). simpl. by do 2 f_equal.
      * destruct (space3 z y x); [|by exists []].
        exists (x :: y :: z :: ws3). simpl. by do 3 f_equal.
Qed.

Lemma trimRight_prefix s : exists ws, s = trimRight s ++ ws.
Proof.
  destruct (trimRev_suffix (rev s)) as [ws Hws].
  exists (rev ws). unfold trimRight. rewrite <- rev_app_distr, <- Hws.
  by rewrite rev_involutive.
Qed.

(** A string on which [trimLeft] stops at once keeps this property when it
    is cut short. *)
Lemma trimLeft_stopped_prefix p q :
  trimLeft (p ++ q) = p ++ q -> trimLeft p = p.
Proof.
  intros Hpq.
  destruct p as [|x p]; [done|].
  assert (Hlen : forall r, trimLeft r <> x :: p ++ q \/ (length r >= length (x :: p ++ q))%nat).
  { intros r. destruct (decide (length r < length (x :: p ++ q))%nat); [left|right; lia].
    intros Heq. pose proof (trimLeft_length r) as Hl. rewrite Heq in Hl. lia. }
  rewrite <- app_comm_cons in Hpq. simpl in Hpq.
  destruct (asciiSpace x) eqn:Hx.
  { destruct (Hlen (p ++ q)) as [Hn|Hn]; [done|simpl in Hn; lia]. }
  destruct p as [|y p].
  { simpl. by rewrite Hx. }
  rewrite <- app_comm_cons in Hpq.
  destruct (space2 x y) eqn:Hxy.
  { destruct (Hlen (p ++ q)) as [Hn|Hn]; [done|simpl in Hn; lia]. }
  destruct p as [|z p].
  { simpl. by rewrite Hx, Hxy. }
  rewrite <- app_comm_cons in Hpq.
  destruct (space3 x y z) eqn:Hxyz.
  { destruct (Hlen (p ++ q)) as [Hn|Hn]; [done|simpl in Hn; lia]. }
  simpl. by rewrite Hx, Hxy, Hxyz.
Qed.

Lemma TrimSpace_idem s : TrimSpace (TrimSpace s) = TrimSpace s.
Proof.
  unfold TrimSpace.
  destruct (trimRight_prefix (trimLeft s)) as [ws Hws].
  assert (Hstop : trimLeft (trimRight (trimLeft s)) = trimRight (trimLeft s)).
  { apply (trimLeft_stopped_prefix _ ws). rewrite <- Hws. apply trimLeft_idem. }
  by rewrite Hstop, trimRight_idem.
Qed.

(** ** Splitting and joining *)

Lemma Index_None (s : str) (sep : ascii) : Index s sep = None <-> sep ∉ s.
Proof.
  induction s as [|c s IH]; simpl.
  - split; [intros _; apply not_elem_of_nil|done].
  - rewrite not_elem_of_cons. destruct (Ascii.eqb_spec c sep) as [->|Hne].
    + split; [done|]. by intros [? _].
    + rewrite fmap_None, IH. split; [done|by intros [_ ?]].
Qed.

Lemma Split_no_sep (s : str) (sep : ascii) : sep ∉ s -> Split s sep = [s].
Proof.
  induction s as [|c s IH]; [done|].
  intros [Hc Hs]%not_elem_of_cons. simpl.
  destruct (Ascii.eqb_spec c sep); [congruence|]. by rewrite IH.
Qed.

Lemma Split_app_sep (a b : str) (sep : ascii) :
  sep ∉ a -> Split (a ++ sep :: b) sep = a :: Split b sep.
Proof.
  induction a as [|c a IH]; simpl.
  - intros _. by rewrite Ascii.eqb_refl.
  - intros [Hc Ha]%not_elem_of_cons.
    destruct (Ascii.eqb_spec c sep); [congruence|]. by rewrite IH.
Qed.

Lemma Split_Join (fs : list str) (sep : ascii) :
  fs <> [] -> Forall (fun f => sep ∉ f) fs -> Split (Join fs [sep]) sep = fs.
Proof.
  induction fs as [|f fs IH]; [done|]. intros _ Hall.
  apply Forall_cons in Hall as [Hf Hfs].
  destruct fs as [|g fs].
  - simpl. by apply Split_no_sep.
  - change (Join (f :: g :: fs) [sep]) with (f ++ sep :: Join (g :: fs) [sep]).
    rewrite Split_app_sep by done. by rewrite IH.
Qed.

(** ** Masks and prefix lengths *)

Section MaskPrefix.
Context `{GoLibrary}.

(** The 33 masks, checked one by one. *)
Lemma maskToPrefix_prefixToMask_table :
  forallb (fun n => maskToPrefix (prefixToMask (Z.of_nat n)) =? Z.of_nat n)
          (seq 0 33) = true.
Proof. vm_compute. reflexivity. Qed.

Lemma maskToPrefix_prefixToMask (p : Z) :
  0 <= p <= 32 -> maskToPrefix (prefixToMask p) = p.
Proof.
  intros Hp.
  pose proof maskToPrefix_prefixToMask_table as Htab.
  rewrite forallb_forall in Htab.
  specialize (Htab (Z.to_nat p)).
  rewrite Z2Nat.id in Htab by lia.
  apply Z.eqb_eq, Htab, in_seq. lia.
Qed.

(** C7.  [prefixToMask 24] is 255.255.255.0, [maskToPrefix] of
    255.255.255.0 is 24, and [maskToPrefix] undoes [prefixToMask] on every
    prefix length from 0 to 32. *)
Theorem mask_prefix_conversion :
  prefixToMask 24 = lit "255.255.255.0"
  /\ maskToPrefix (lit "255.255.255.0") = 24
  /\ forall p, 0 <= p <= 32 -> maskToPrefix (prefixToMask p) = p.
Proof.
  split; [reflexivity|]. split; [reflexivity|].
  apply maskToPrefix_prefixToMask.
Qed.
End MaskPrefix.

Lemma mask_prefix_conversion_witness :
  @maskToPrefix asciiLibrary (prefixToMask 17) = 17.
Proof.
  apply (proj2 (proj2 (@mask_prefix_conversion asciiLibrary))). lia.
Defined.

(** ** The address line of a static configuration *)

Section AddressLine.
Context `{GoLibrary}.

Lemma prefixToMask_table :
  forallb (fun n =>
             let p := Z.of_nat n in
             negb (isEmpty (prefixToMask p))
             && match dottedValue (prefixToMask p) with
                | Some v => leadingOneBits32 v =? p
                | None => false
                end)
          (seq 0 33) = true.
Proof. vm_compute. reflexivity. Qed.

Lemma prefixToMask_facts (p : Z) :
  0 <= p <= 32 ->
  isEmpty (prefixToMask p) = false
  /\ exists v, dottedValue (prefixToMask p) = Some v /\ leadingOneBits32 v = p.
Proof.
  intros Hp.
  pose proof prefixToMask_table as Htab.
  rewrite forallb_forall in Htab.
  assert (Hin : In (Z.to_nat p) (seq 0 33)) by (apply in_seq; lia).
  apply Htab in Hin. cbv zeta in Hin. rewrite Z2Nat.id in Hin by lia.
  apply andb_true_iff in Hin as [Hne Hv].
  split; [by apply negb_true_iff|].
  destruct (dottedValue (prefixToMask p)) as [v|]; [|done].
  exists v. split; [done|]. by apply Z.eqb_eq.
Qed.

(** C4, as amended.  For a dotted mask of prefix length [p] (its count of
    leading one-bits), a non-empty [ip] gives the line [Address=<ip>/<p>]
    when [p] is at least 1, and the line [Address=<ip>], with no suffix,
    for the zero mask. *)
Theorem static_address_line (ip : str) (p : Z) :
  ip <> [] -> 0 <= p <= 32 ->
  (exists v, dottedValue (prefixToMask p) = Some v /\ leadingOneBits32 v = p)
  /\ staticAddrLine ip (prefixToMask p)
     = if p =? 0 then lit "Address=" ++ ip
       else lit "Address=" ++ ip ++ lit "/" ++ Itoa p.
Proof.
  intros Hip Hp. destruct (prefixToMask_facts p Hp) as [Hne Hv].
  split; [done|]. unfold staticAddrLine.
  rewrite Hne, maskToPrefix_prefixToMask by done.
  destruct ip; [done|]. cbn [isEmpty].
  destruct (Z.eqb_spec p 0) as [->|Hp0]; [done|].
  destruct (Z.gtb_spec p 0); [done|lia].
Qed.
End AddressLine.

Lemma static_address_line_witness :
  @staticAddrLine asciiLibrary (lit "192.168.1.50") (prefixToMask 24)
  = lit "Address=192.168.1.50/24".
Proof.
  refine (proj2 (@static_address_line asciiLibrary (lit "192.168.1.50") 24 _ _)).
  - discriminate.
  - lia.
Defined.

(** C4 as stated fails on the zero mask: its count of leading one-bits is 0,
    and the line written is [Address=192.168.1.50], not
    [Address=192.168.1.50/0]. *)
Lemma zero_mask_line_has_no_prefix :
  @dottedValue asciiLibrary (lit "0.0.0.0") = Some 0
  /\ leadingOneBits32 0 = 0
  /\ @staticAddrLine asciiLibrary (lit "192.168.1.50") (lit "0.0.0.0")
     = lit "Address=192.168.1.50"
  /\ @staticAddrLine asciiLibrary (lit "192.168.1.50") (lit "0.0.0.0")
     <> lit "Address=192.168.1.50" ++ lit "/" ++ Itoa 0.
Proof. repeat split; try reflexivity. vm_compute. discriminate. Qed.

(** ** The codec *)

Section Codec.
Context `{GoLibrary}.

Lemma parseNetKVPart_IP r v :
  parseNetKVPart r (lit "IP=" ++ v)
  = {| kvIP := TrimSpace v; kvMask := kvMask r; kvGW := kvGW r; kvDNS := kvDNS r |}.
Proof. done. Qed.
Lemma parseNetKVPart_MASK r v :
  parseNetKVPart r (lit "MASK=" ++ v)
  = {| kvIP := kvIP r; kvMask := TrimSpace v; kvGW := kvGW r; kvDNS := kvDNS r |}.
Proof. done. Qed.
Lemma parseNetKVPart_GW r v :
  parseNetKVPart r (lit "GW=" ++ v)
  = {| kvIP := kvIP r; kvMask := kvMask r; kvGW := TrimSpace v; kvDNS := kvDNS r |}.
Proof. done. Qed.
Lemma parseNetKVPart_DNS r v :
  parseNetKVPart r (lit "DNS=" ++ v)
  = {| kvIP := kvIP r; kvMask := kvMask r; kvGW := kvGW r; kvDNS := TrimSpace v |}.
Proof. done. Qed.

Lemma parseNetKV_Join (fs : list str) :
  Forall (fun f => "|"%char ∉ f) fs ->
  parseNetKV (Join (lit "CFG" :: fs) (lit "|")) = fold_left parseNetKVPart fs emptyNetKV.
Proof.
  intros Hfs. destruct fs as [|f fs]; [done|].
  change (Join (lit "CFG" :: f :: fs) (lit "|"))
    with (lit "CFG" ++ "|"%char :: Join (f :: fs) ["|"%char]).
  unfold parseNetKV. cbn [lit list_ascii_of_string app Index Ascii.eqb Bool.eqb fmap option_fmap option_map].
  cbn [drop]. by rewrite drop_0, Split_Join.
Qed.

Lemma isEmpty_true (s : str) : isEmpty s = true -> s = [].
Proof. by destruct s. Qed.

(** C8, as amended.  When no trimmed value contains the separator [|],
    decoding the message [buildNetCfg] encodes gives back the trimmed
    values: a value that is empty after trimming is left out of the
    message and comes back empty. *)
Theorem codec_round_trip (ip mask gw dns : str) :
  "|"%char ∉ TrimSpace ip -> "|"%char ∉ TrimSpace mask ->
  "|"%char ∉ TrimSpace gw -> "|"%char ∉ TrimSpace dns ->
  parseNetKV (buildNetCfg ip mask gw dns)
  = {| kvIP := TrimSpace ip; kvMask := TrimSpace mask;
       kvGW := TrimSpace gw; kvDNS := TrimSpace dns |}.
Proof.
  intros Hip Hmask Hgw Hdns. unfold buildNetCfg.
  change ([lit "CFG"] ++ ?l) with (lit "CFG" :: l).
  rewrite parseNetKV_Join.
  - destruct (isEmpty (TrimSpace ip)) eqn:Eip;
      destruct (isEmpty (TrimSpace mask)) eqn:Emask;
      destruct (isEmpty (TrimSpace gw)) eqn:Egw;
      destruct (isEmpty (TrimSpace dns)) eqn:Edns;
      cbn [app fold_left];
      rewrite ?parseNetKVPart_IP, ?parseNetKVPart_MASK, ?parseNetKVPart_GW,
        ?parseNetKVPart_DNS, ?TrimSpace_idem;
      repeat match goal with
             | E : isEmpty _ = true |- _ => apply isEmpty_true in E; rewrite ?E
             end; reflexivity.
  - repeat (apply Forall_app; split);
      match goal with
      | |- Forall _ (if ?b then _ else _) => destruct b
      end; repeat constructor.
    all: rewrite not_elem_of_app; split; [apply (bool_decide_unpack _); by vm_compute|done].
Qed.
End Codec.

Lemma codec_round_trip_witness :
  @parseNetKV asciiLibrary
    (buildNetCfg (lit " 192.168.1.50") (lit "255.255.255.0 ") (lit "  ") (lit "8.8.8.8"))
  = {| kvIP := lit "192.168.1.50"; kvMask := lit "255.255.255.0";
       kvGW := []; kvDNS := lit "8.8.8.8" |}.
Proof.
  apply (@codec_round_trip asciiLibrary
           (lit " 192.168.1.50") (lit "255.255.255.0 ") (lit "  ") (lit "8.8.8.8"));
    apply (bool_decide_unpack _); vm_compute; exact I.
Defined.

(** C8 as stated fails on a value that holds the separator: the value [a|b]
    is not empty after trimming, and it comes back as [a]. *)
Lemma codec_cuts_value_at_separator :
  TrimSpace (lit "a|b") = lit "a|b"
  /\ buildNetCfg (lit "a|b") [] [] [] = lit "CFG|IP=a|b"
  /\ @parseNetKV asciiLibrary (buildNetCfg (lit "a|b") [] [] [])
     = {| kvIP := lit "a"; kvMask := []; kvGW := []; kvDNS := [] |}
  /\ kvIP (@parseNetKV asciiLibrary (buildNetCfg (lit "a|b") [] [] [])) <> TrimSpace (lit "a|b").
Proof. repeat split; try reflexivity. vm_compute. discriminate. Qed.

(** ** Failure replies at the client *)

Section FailureReplies.
Context `{GoLibrary}.

Lemma ToUpper_app_ascii (k s : str) :
  forallb isASCII k = true -> ToUpper (k ++ s) = map asciiUpper k ++ ToUpper s.
Proof.
  induction k as [|c k IH]; [done|]. simpl. intros [Hc Hk]%andb_true_iff.
  by rewrite Hc, IH.
Qed.

Lemma Contains_cons c s sub :
  Contains (c :: s) sub = HasPrefix (c :: s) sub || Contains s sub.
Proof. done. Qed.

(** The agent's reply to a RESTART it cannot carry out. *)
Lemma respond_restart_failure env w datagram err :
  classify (TrimSpace datagram) = CmdRestart ->
  rebootError w = Some err ->
  respond env w datagram = (restartNack err, w).
Proof. intros Hc He. unfold respond. by rewrite Hc, He. Qed.

(** The agent's reply to a CFG it cannot save. *)
Lemma respond_save_failure env w datagram :
  classify (TrimSpace datagram) = CmdCFG ->
  writeOK w DeviceConfigFile = false ->
  (respond env w datagram).1 = saveFailedReply.
Proof.
  intros Hc Hw. unfold respond. rewrite Hc. unfold handleCFG, saveConfig.
  cbn [logCall writeOK]. by rewrite Hw.
Qed.

Lemma restartNack_not_accepted (err : str) :
  Contains (ToUpper (trimRight (ReplaceAll err "|" ":"))) (lit "RESTART_ACK") = false ->
  restartAckAccepted (restartNack err) = false.
Proof.
  intros He. unfold restartAckAccepted, restartNack.
  rewrite TrimSpace_plain_prefix by done.
  rewrite ToUpper_app_ascii by done.
  set (e := ToUpper (trimRight (ReplaceAll err "|" ":"))) in *.
  assert (Hc : Contains (map asciiUpper (lit "RESTART_NACK|ERR=") ++ e)
                        (lit "RESTART_ACK") = false).
  { change (map asciiUpper (lit "RESTART_NACK|ERR=")) with (lit "RESTART_NACK|ERR=").
    cbn [lit list_ascii_of_string app].
    repeat (rewrite Contains_cons; cbn [HasPrefix Ascii.eqb Bool.eqb andb orb]).
    exact He. }
  rewrite Hc. by rewrite andb_false_r.
Qed.

(** C10, as amended.  The reply [CFG_NACK|ERR=SAVE_FAILED] fails the test
    of [sendCfgAndWaitAck]; the reply [RESTART_NACK|ERR=<e>] fails the
    tests of [sendRestartAndWaitAck] whenever [e], with its trailing white
    space dropped and in upper case as the client reads it, does not
    contain [RESTART_ACK]; and a client that receives only such replies
    from its target ends on the deadline error. *)
Theorem failure_replies_time_out :
  cfgAckAccepted saveFailedReply = false
  /\ (forall err,
        Contains (ToUpper (trimRight (ReplaceAll err "|" ":"))) (lit "RESTART_ACK") = false ->
        restartAckAccepted (restartNack err) = false)
  /\ (forall ip incoming,
        Forall (fun d : str * str => d.1 = ip -> d.2 = saveFailedReply) incoming ->
        sendCfgAndWaitAck ip incoming = None)
  /\ (forall ip incoming,
        Forall (fun d : str * str =>
                  d.1 = ip ->
                  exists err,
                    Contains (ToUpper (trimRight (ReplaceAll err "|" ":")))
                             (lit "RESTART_ACK") = false
                    /\ d.2 = restartNack err) incoming ->
        sendRestartAndWaitAck ip incoming = None).
Proof.
  assert (Hcfg : cfgAckAccepted saveFailedReply = false) by reflexivity.
  split; [done|]. split; [apply restartNack_not_accepted|]. split.
  - intros ip incoming Hall. induction Hall as [|[from payload] rest Hd _ IH]; [done|].
    cbn [sendCfgAndWaitAck]. unfold eqStr. case_bool_decide as Hfrom; [|done].
    cbn [negb]. cbn [fst snd] in Hd. by rewrite (Hd Hfrom), Hcfg.
  - intros ip incoming Hall. induction Hall as [|[from payload] rest Hd _ IH]; [done|].
    cbn [sendRestartAndWaitAck]. unfold eqStr. case_bool_decide as Hfrom; [|done].
    cbn [negb]. cbn [fst snd] in Hd. destruct (Hd Hfrom) as (err & Herr & ->).
    by rewrite restartNack_not_accepted.
Qed.
End FailureReplies.

Lemma failure_replies_time_out_witness :
  @sendRestartAndWaitAck asciiLibrary (lit "10.0.0.7")
    [(lit "10.0.0.9", lit "RESTART_ACK");
     (lit "10.0.0.7", restartNack (lit "exit status 1"))] = None.
Proof.
  apply (proj2 (proj2 (proj2 (@failure_replies_time_out asciiLibrary)))).
  repeat constructor.
  - intros Hfrom. vm_compute in Hfrom. discriminate Hfrom.
  - intros _. exists (lit "exit status 1"). split; reflexivity.
Defined.

(** C10 as stated fails on an error text in lower case: [restart_ack] does
    not contain [RESTART_ACK] and holds no [|], yet the client reads the
    reply in upper case, accepts it, and returns the nack. *)
Lemma lowercase_restart_ack_is_accepted :
  Contains (lit "restart_ack") (lit "RESTART_ACK") = false
  /\ restartNack (lit "restart_ack") = lit "RESTART_NACK|ERR=restart_ack"
  /\ @restartAckAccepted asciiLibrary (restartNack (lit "restart_ack")) = true
  /\ @sendRestartAndWaitAck asciiLibrary (lit "10.0.0.7")
       [(lit "10.0.0.7", restartNack (lit "restart_ack"))]
     = Some (lit "RESTART_NACK|ERR=restart_ack").
Proof. repeat split; reflexivity. Qed.

(** ** The CFG branch of the dispatcher *)

Section CfgBranch.
Context `{GoLibrary}.



(** Writing a network file leaves the saved record and the trace alone. *)
Lemma writeNetworkFile_frame w name content :
  deviceConfig (writeNetworkFile w name content).2 = deviceConfig w
  /\ calls (writeNetworkFile w name content).2 = calls w.
Proof. unfold writeNetworkFile. by destruct (writeOK w (NetworkFile name)). Qed.

Lemma applySystemdNetworkConfig_frame w ip mask gw dns :
  deviceConfig (applySystemdNetworkConfig w ip mask gw dns).2 = deviceConfig w
  /\ calls (applySystemdNetworkConfig w ip mask gw dns).2 = calls w.
Proof. apply writeNetworkFile_frame. Qed.

Lemma applySystemdNetworkDHCP_frame w :
  deviceConfig (applySystemdNetworkDHCP w).2 = deviceConfig w
  /\ calls (applySystemdNetworkDHCP w).2 = calls w.
Proof.
  unfold applySystemdNetworkDHCP.
  destruct (Glob matchEthNetwork w) as [|[name c] ms]; apply writeNetworkFile_frame.
Qed.



(** What the CFG branch does, case by case. *)
Lemma handleCFG_cases env w msg :
  let cfg := effectiveConfig env msg in
  let kv := parseNetKV msg in
  let w1 := logCall w (CallSaveConfig cfg) in
  let w2 := setDeviceConfig w1 (Some (mergeConfig (default emptyConfig (deviceConfig w)) cfg)) in
  handleCFG env w msg =
    if negb (writeOK w DeviceConfigFile) then (saveFailedReply, w1)
    else if hasDHCPFlag msg then
      let r := applySystemdNetworkDHCP (logCall w2 CallApplyDHCP) in
      (lit "CFG_ACK|ID=" ++ ID cfg ++ (if r.1 then lit "|NET_ACK" else lit "|NET_NACK"), r.2)
    else if negb (allEmpty kv) then
      let r := applySystemdNetworkConfig
                 (logCall w2 (CallApplyStatic (kvIP kv) (kvMask kv) (kvGW kv) (kvDNS kv)))
                 (kvIP kv) (kvMask kv) (kvGW kv) (kvDNS kv) in
      (lit "CFG_ACK|ID=" ++ ID cfg ++ (if r.1 then lit "|NET_ACK" else lit "|NET_NACK"), r.2)
    else (lit "CFG_ACK|ID=" ++ ID cfg, w2).
Proof.
  cbv zeta. unfold handleCFG, saveConfig, effectiveConfig.
  cbn [logCall writeOK deviceConfig].
  destruct (writeOK w DeviceConfigFile); [|done]. cbn [negb].
  destruct (hasDHCPFlag msg).
  { match goal with |- context [applySystemdNetworkDHCP ?x] =>
      destruct (applySystemdNetworkDHCP x) as [[] ?] end; done. }
  destruct (allEmpty (parseNetKV msg)); cbn [negb]; [done|].
  match goal with |- context [applySystemdNetworkConfig ?x ?a ?b ?c ?d] =>
    destruct (applySystemdNetworkConfig x a b c d) as [[] ?] end; done.
Qed.


(** C6, as amended.  The calls a CFG request makes.  The record is saved
    first; when that fails nothing else is called.  Otherwise the DHCP
    apply, and no static apply, is called exactly when the message in
    upper case contains [DHCP=1], [DHCP=YES] or [DHCP=TRUE] somewhere;
    failing that, the static apply is called exactly when one of the
    values [parseNetKV] decodes for IP, MASK, GW and DNS is not empty;
    failing that too, no network action is taken. *)
Theorem cfg_network_action (env : Env) (w : World) (datagram : str) :
  let msg := TrimSpace datagram in
  let cfg := effectiveConfig env msg in
  let kv := parseNetKV msg in
  let up := ToUpper msg in
  let w' := (respond env w datagram).2 in
  classify msg = CmdCFG ->
  calls w' =
    calls w ++ CallSaveConfig cfg ::
      (if negb (writeOK w DeviceConfigFile) then []
       else if Contains up (lit "DHCP=1") || Contains up (lit "DHCP=YES")
               || Contains up (lit "DHCP=TRUE")
            then [CallApplyDHCP]
       else if negb (isEmpty (kvIP kv) && isEmpty (kvMask kv)
                     && isEmpty (kvGW kv) && isEmpty (kvDNS kv))
            then [CallApplyStatic (kvIP kv) (kvMask kv) (kvGW kv) (kvDNS kv)]
       else []).
Proof.
  cbv zeta. intros Hc. unfold respond. rewrite Hc.
  rewrite handleCFG_cases. cbv zeta.
  change (Contains (ToUpper (TrimSpace datagram)) (lit "DHCP=1")
          || Contains (ToUpper (TrimSpace datagram)) (lit "DHCP=YES")
          || Contains (ToUpper (TrimSpace datagram)) (lit "DHCP=TRUE"))
    with (hasDHCPFlag (TrimSpace datagram)).
  set (msg := TrimSpace datagram). set (cfg := effectiveConfig env msg).
  set (kv := parseNetKV msg).
  change (isEmpty (kvIP kv) && isEmpty (kvMask kv) && isEmpty (kvGW kv) && isEmpty (kvDNS kv))
    with (allEmpty kv).
  destruct (writeOK w DeviceConfigFile); cbn [negb]; [|done].
  destruct (hasDHCPFlag msg).
  { cbn [snd]. rewrite (proj2 (applySystemdNetworkDHCP_frame _)).
    cbn [logCall setDeviceConfig calls]. by rewrite <- app_assoc. }
  destruct (allEmpty kv); cbn [negb snd]; [done|].
  rewrite (proj2 (applySystemdNetworkConfig_frame _ _ _ _ _)).
  cbn [logCall setDeviceConfig calls]. by rewrite <- app_assoc.
Qed.
End CfgBranch.


Lemma cfg_network_action_witness :
  calls (@respond asciiLibrary sampleEnv sampleWorld (lit "cfg|dhcp=Yes")).2
  = [CallSaveConfig {| ID := lit "HOST-a"; IP_ := []; Port := [] |}; CallApplyDHCP].
Proof.
  exact (@cfg_network_action asciiLibrary sampleEnv sampleWorld (lit "cfg|dhcp=Yes") eq_refl).
Defined.

(** C6 as stated fails on a DHCP field whose value only starts with 1: the
    message [CFG|DHCP=10] holds no DHCP flag with value 1, yes or true, and
    the DHCP apply is called all the same. *)
Lemma dhcp_value_10_calls_dhcp_apply :
  @decodeFields asciiLibrary (lit "CFG|DHCP=10") = [(lit "DHCP", lit "10")]
  /\ @dhcpFlagPresent asciiLibrary (lit "CFG|DHCP=10") = false
  /\ calls (@respond asciiLibrary sampleEnv sampleWorld (lit "CFG|DHCP=10")).2
     = [CallSaveConfig {| ID := lit "HOST-a"; IP_ := []; Port := [] |}; CallApplyDHCP].
Proof. repeat split; reflexivity. Qed.

(** ** The identity of the device *)

Lemma TrimSpace_plain (s : str) : forallb plainByte s = true -> TrimSpace s = s.
Proof.
  intros Hs. destruct s as [|c s]; [done|].
  rewrite <- (app_nil_r (c :: s)) at 1.
  rewrite TrimSpace_plain_prefix by done. apply app_nil_r.
Qed.

Lemma string_of_uint_safe u :
  forallb hexSafe (lit (HexadecimalString.NilEmpty.string_of_uint u)) = true.
Proof. induction u; [done|..]; exact IHu. Qed.

Lemma FormatInt16_safe ts : forallb hexSafe (FormatInt16 ts) = true.
Proof.
  unfold FormatInt16, HexadecimalString.NilZero.string_of_int,
    HexadecimalString.NilZero.string_of_uint.
  destruct (Z.to_hex_int ts) as [d|d]; destruct d; try done;
    apply (string_of_uint_safe (_ d)) || (apply (string_of_uint_safe d)).
Qed.

Lemma dashEvery4_groups (s : str) : dashEvery4 s = Join (groupsOf4 s) (lit "-").
Proof.
  induction s as [s IH] using str_ind3.
  destruct s as [|a [|b [|c [|d [|e r]]]]]; try done.
  change (dashEvery4 (a :: b :: c :: d :: e :: r))
    with (a :: b :: c :: d :: "-"%char :: dashEvery4 (e :: r)).
  change (groupsOf4 (a :: b :: c :: d :: e :: r))
    with ([a; b; c; d] :: groupsOf4 (e :: r)).
  rewrite (IH (e :: r)) by (simpl; lia).
  destruct (groupsOf4 (e :: r)) eqn:Hg; [|done].
  by destruct r as [|? [|? [|? [|? ?]]]].
Qed.

Lemma dashEvery4_plain (s : str) :
  forallb plainByte s = true -> forallb plainByte (dashEvery4 s) = true.
Proof.
  induction s as [s IH] using str_ind3. intros Hs.
  destruct s as [|a [|b [|c [|d [|e r]]]]]; try done.
  change (dashEvery4 (a :: b :: c :: d :: e :: r))
    with (a :: b :: c :: d :: "-"%char :: dashEvery4 (e :: r)).
  cbn [forallb] in Hs |- *.
  apply andb_true_iff in Hs as [-> Hs]. apply andb_true_iff in Hs as [-> Hs].
  apply andb_true_iff in Hs as [-> Hs]. apply andb_true_iff in Hs as [-> Hs].
  change (plainByte "-") with true. cbn [andb].
  apply IH; [simpl; lia|done].
Qed.

Section Identity.
Context `{GoLibrary}.

Lemma ToUpper_ascii (s : str) :
  forallb isASCII s = true -> ToUpper s = map asciiUpper s.
Proof.
  intros Hs. rewrite <- (app_nil_r s) at 1.
  rewrite ToUpper_app_ascii by done. apply app_nil_r.
Qed.

Lemma ToUpper_FormatInt16 ts : ToUpper (FormatInt16 ts) = map asciiUpper (FormatInt16 ts).
Proof.
  apply ToUpper_ascii. pose proof (FormatInt16_safe ts) as Hs.
  induction (FormatInt16 ts) as [|c s IH]; [done|].
  cbn [forallb] in *. apply andb_true_iff in Hs as [[? _]%andb_true_iff ?].
  apply andb_true_iff. auto.
Qed.

Lemma generateUniqueID_plain ts : forallb plainByte (generateUniqueID ts) = true.
Proof.
  unfold generateUniqueID. apply dashEvery4_plain.
  rewrite ToUpper_FormatInt16. cbn [lit list_ascii_of_string app forallb].
  apply andb_true_iff. split; [done|].
  pose proof (FormatInt16_safe ts) as Hs.
  induction (FormatInt16 ts) as [|c s IH]; [done|].
  cbn [forallb map] in *. apply andb_true_iff in Hs as [[_ ?]%andb_true_iff ?].
  apply andb_true_iff. auto.
Qed.

Lemma generateUniqueID_nonempty ts : isEmpty (generateUniqueID ts) = false.
Proof.
  unfold generateUniqueID. cbn [lit list_ascii_of_string app].
  by destruct (ToUpper (FormatInt16 ts)) as [|b [|c [|d [|e r]]]].
Qed.

Lemma ensureUniqueID_stored w b :
  uniqueID w = Some b -> TrimSpace b <> [] ->
  ensureUniqueID w = (TrimSpace b, true, w).
Proof.
  intros Hb Hne. unfold ensureUniqueID. rewrite Hb.
  by destruct (TrimSpace b).
Qed.

Lemma ensureUniqueID_fresh w :
  (forall b, uniqueID w = Some b -> TrimSpace b = []) ->
  let id := generateUniqueID (unixMilli w) in
  (ensureUniqueID w).1.1 = id
  /\ (writeOK w UniqueIDFile = true ->
      (ensureUniqueID w).1.2 = true /\ uniqueID (ensureUniqueID w).2 = Some id)
  /\ (writeOK w UniqueIDFile = false ->
      (ensureUniqueID w).1.2 = false /\ (ensureUniqueID w).2 = w).
Proof.
  intros Hb. cbv zeta. unfold ensureUniqueID.
  assert (Hst : match uniqueID w with Some b => TrimSpace b | None => [] end = []).
  { destruct (uniqueID w) as [b|]; [by apply Hb|done]. }
  rewrite Hst. cbn [isEmpty negb].
  destruct (writeOK w UniqueIDFile) eqn:Hw.
  - cbn [setUniqueID writeOK]. destruct (writeOK w HostnameFile); by repeat split.
  - by repeat split.
Qed.

Lemma respond_TF env w datagram :
  classify (TrimSpace datagram) = CmdTF ->
  respond env w datagram
  = (lit "TF|ID=" ++ (ensureUniqueID w).1.1 ++ lit "|PORT=" ++ port env, (ensureUniqueID w).2).
Proof.
  intros Hc. unfold respond. rewrite Hc. by destruct (ensureUniqueID w) as [[uid ok] w'].
Qed.

Lemma respond_GET_ID env w datagram :
  classify (TrimSpace datagram) = CmdGetID ->
  respond env w datagram = (lit "ID=" ++ (ensureUniqueID w).1.1, (ensureUniqueID w).2).
Proof.
  intros Hc. unfold respond. rewrite Hc. by destruct (ensureUniqueID w) as [[uid ok] w'].
Qed.

(** C9, as amended.  [ensureUniqueID] returns the stored identifier,
    trimmed, whenever the identity file holds more than white space.
    Otherwise (no file, or a file that is empty after trimming) it returns
    [generateUniqueID]'s result: a [0], then the hexadecimal rendering of
    the millisecond timestamp in upper case, cut into groups of four
    joined by [-]; the identifier is stored when the write succeeds.  So
    an agent with no identity file answers TF with that identifier, and a
    later GET_ID, once it is stored, returns the same one. *)
Theorem identity_format_and_stability :
  (forall w b,
     uniqueID w = Some b -> TrimSpace b <> [] ->
     ensureUniqueID w = (TrimSpace b, true, w))
  /\ (forall w,
        (forall b, uniqueID w = Some b -> TrimSpace b = []) ->
        let id := generateUniqueID (unixMilli w) in
        (ensureUniqueID w).1.1 = id
        /\ (writeOK w UniqueIDFile = true ->
            (ensureUniqueID w).1.2 = true /\ uniqueID (ensureUniqueID w).2 = Some id)
        /\ (writeOK w UniqueIDFile = false ->
            (ensureUniqueID w).1.2 = false /\ (ensureUniqueID w).2 = w))
  /\ (forall ts,
        generateUniqueID ts
        = Join (groupsOf4 (lit "0" ++ map asciiUpper (FormatInt16 ts))) (lit "-"))
  /\ (forall env w tf getID w2,
        classify (TrimSpace tf) = CmdTF ->
        classify (TrimSpace getID) = CmdGetID ->
        uniqueID w = None ->
        writeOK w UniqueIDFile = true ->
        let id := generateUniqueID (unixMilli w) in
        (respond env w tf).1 = lit "TF|ID=" ++ id ++ lit "|PORT=" ++ port env
        /\ (uniqueID w2 = uniqueID (respond env w tf).2 ->
            (respond env w2 getID).1 = lit "ID=" ++ id)).
Proof.
  split; [apply ensureUniqueID_stored|]. split; [apply ensureUniqueID_fresh|]. split.
  - intros ts. unfold generateUniqueID.
    by rewrite ToUpper_FormatInt16, dashEvery4_groups.
  - intros env w tf getID w2 Htf Hget Hnone Hw. cbv zeta.
    destruct (ensureUniqueID_fresh w) as (Hid & Hok & _); [by rewrite Hnone|].
    destruct (Hok Hw) as [_ Hstored].
    rewrite respond_TF, respond_GET_ID by done. cbn [fst snd].
    rewrite Hid. split; [done|]. rewrite Hstored. intros Hw2.
    rewrite (ensureUniqueID_stored w2 _ Hw2).
    + cbn [fst]. by rewrite TrimSpace_plain by apply generateUniqueID_plain.
    + rewrite TrimSpace_plain by apply generateUniqueID_plain.
      pose proof (generateUniqueID_nonempty (unixMilli w)) as Hne.
      by destruct (generateUniqueID (unixMilli w)).
Qed.
End Identity.

Lemma identity_witness :
  (@respond asciiLibrary sampleEnv sampleWorld (lit "TF")).1 = lit "TF|ID=0192-CC09-1400|PORT=60000"
  /\ (@respond asciiLibrary sampleEnv
        (@respond asciiLibrary sampleEnv sampleWorld (lit "TF")).2 (lit "get_id")).1
     = lit "ID=0192-CC09-1400".
Proof.
  pose proof (proj2 (proj2 (proj2 (@identity_format_and_stability asciiLibrary)))
                sampleEnv sampleWorld (lit "TF") (lit "get_id")
                (@respond asciiLibrary sampleEnv sampleWorld (lit "TF")).2
                eq_refl eq_refl eq_refl eq_refl) as [Htf Hget].
  split; [exact Htf|exact (Hget eq_refl)].
Defined.

(** C9 as stated fails on an identity file that holds only a line break:
    its content is not empty, and the identifier is generated anew. *)
Lemma blank_identity_file_is_regenerated :
  let w := setUniqueID sampleWorld (Some ["010"%char]) in
  uniqueID w = Some ["010"%char]
  /\ TrimSpace ["010"%char] = []
  /\ (@ensureUniqueID asciiLibrary w).1.1 = lit "0192-CC09-1400"
  /\ uniqueID (@ensureUniqueID asciiLibrary w).2 = Some (lit "0192-CC09-1400").
Proof. repeat split; reflexivity. Qed.

(** ** Upserting a line into a section *)

Lemma upsertTail_upsertBody k new rest : upsertTail k new rest = upsertBody k new rest.
Proof.
  unfold upsertTail. induction rest as [|l rest IH]; [done|].
  cbn [list_find upsertBody]. case_decide as Hh.
  - rewrite Hh. done.
  - apply not_true_is_false in Hh. rewrite Hh.
    destruct (list_find (fun l => isSectionHeader l = true) rest) as [[j x]|] eqn:Hj;
      cbn [fmap option_fmap option_map prod_map fst snd id length take list_find].
    + case_decide as Hk.
      * by rewrite Hk.
      * apply not_true_is_false in Hk. rewrite Hk.
        destruct (list_find (fun l => hasKey k l = true) (take j rest)) as [[i y]|];
          cbn [fmap option_fmap option_map prod_map fst snd id]; cbn; by rewrite <- IH.
    + case_decide as Hk.
      * by rewrite Hk.
      * apply not_true_is_false in Hk. rewrite Hk.
        destruct (list_find (fun l => hasKey k l = true) (take (length rest) rest)) as [[i y]|];
          cbn [fmap option_fmap option_map prod_map fst snd id]; cbn; by rewrite <- IH.
Qed.

Lemma upsertLines_absent sec k new (lines : list str) :
  Forall (fun l => TrimSpace l <> sec) lines ->
  upsertLines sec k new lines = lines ++ [[]; sec; new].
Proof.
  induction 1 as [|l lines Hl _ IH]; [done|].
  cbn [upsertLines]. rewrite bool_decide_eq_false_2 by done. by rewrite IH.
Qed.

Lemma upsertLines_present sec k new (pre : list str) h rest :
  Forall (fun l => TrimSpace l <> sec) pre -> TrimSpace h = sec ->
  upsertLines sec k new (pre ++ h :: rest) = pre ++ h :: upsertBody k new rest.
Proof.
  intros Hpre Hh. induction Hpre as [|l pre Hl _ IH].
  - cbn [app upsertLines]. by rewrite bool_decide_eq_true_2.
  - cbn [app upsertLines]. rewrite bool_decide_eq_false_2 by done. by rewrite IH.
Qed.

Lemma drop_past_header {A} (pre : list A) h rest j :
  drop (S (length pre) + j) (pre ++ h :: rest) = drop j rest.
Proof.
  rewrite drop_app_ge by lia.
  by replace (S (length pre) + j - length pre)%nat with (S j) by lia.
Qed.

Lemma take_past_header {A} (pre : list A) h rest j :
  take (S (length pre) + j) (pre ++ h :: rest) = pre ++ h :: take j rest.
Proof.
  rewrite take_app_ge by lia.
  by replace (S (length pre) + j - length pre)%nat with (S j) by lia.
Qed.

Lemma insert_past_header {A} (pre : list A) h rest i x :
  <[(S (length pre) + i)%nat := x]> (pre ++ h :: rest) = pre ++ h :: <[i := x]> rest.
Proof.
  rewrite insert_app_r_alt by lia.
  by replace (S (length pre) + i - length pre)%nat with (S i) by lia.
Qed.

Lemma upsertInSection_upsertLines (lines : list str) sec k new :
  new <> [] -> upsertInSection lines sec k new = upsertLines sec k new lines.
Proof.
  intros Hnew. unfold upsertInSection.
  destruct new as [|c new]; [done|]. cbn [isEmpty]. set (nl := c :: new).
  destruct (list_find (fun l => TrimSpace l = sec) lines) as [[start h]|] eqn:Hfind.
  - apply list_find_Some in Hfind as (Hlook & Hh & Hbefore).
    pose proof (take_drop_middle _ _ _ Hlook) as Hsplit.
    pose proof (lookup_lt_Some _ _ _ Hlook) as Hlt.
    assert (Hpre : Forall (fun l => TrimSpace l <> sec) (take start lines)).
    { apply Forall_forall. intros l [i Hi]%list_elem_of_lookup.
      apply lookup_take_Some in Hi as [Hi Hlti]. by eapply Hbefore. }
    assert (Hpl : length (take start lines) = start) by (rewrite length_take; lia).
    revert Hpre Hpl Hsplit.
    generalize (take start lines) (drop (S start) lines). intros pre rest Hpre <- <-.
    clear Hlook Hbefore Hlt.
    rewrite upsertLines_present, <- upsertTail_upsertBody by done.
    unfold upsertTail.
    assert (Hlen : length (pre ++ h :: rest) = (S (length pre) + length rest)%nat).
    { rewrite length_app. simpl. lia. }
    destruct (list_find (fun l => isSectionHeader l = true) rest) as [[j x]|] eqn:Hj.
    + replace (S (length pre) + j - S (length pre))%nat with j by lia.
      pose proof Hj as (Hjl%lookup_lt_Some & _)%list_find_Some.
      destruct (list_find (fun l => hasKey k l = true) (take j rest)) as [[i y]|] eqn:Hi.
      * apply insert_past_header.
      * rewrite bool_decide_eq_false_2 by lia.
        by rewrite take_past_header, drop_past_header, <- app_assoc.
    + replace (length (pre ++ h :: rest) - S (length pre))%nat with (length rest) by lia.
      destruct (list_find (fun l => hasKey k l = true) (take (length rest) rest)) as [[i y]|] eqn:Hi.
      * apply insert_past_header.
      * rewrite bool_decide_eq_true_2 by done.
        rewrite firstn_all, drop_all. by rewrite <- app_assoc.
  - apply list_find_None in Hfind.
    rewrite upsertLines_absent by done.
    replace (length (lines ++ [[]; sec]) - S (length (lines ++ [[]; sec]) - 1))%nat with 0%nat
      by (rewrite length_app; simpl; lia).
    cbn [take list_find]. rewrite bool_decide_eq_true_2 by done.
    by rewrite <- app_assoc.
Qed.

Lemma split_at_header (rest : list str) :
  exists body post,
    rest = body ++ post
    /\ Forall (fun l => isSectionHeader l = false) body
    /\ match post with [] => True | next :: _ => isSectionHeader next = true end.
Proof.
  induction rest as [|l rest (body & post & -> & Hb & Hp)].
  - by exists [], [].
  - destruct (isSectionHeader l) eqn:Hl.
    + by exists [], (l :: body ++ post).
    + exists (l :: body), post. repeat split; [|done]. by constructor.
Qed.

Lemma upsertBody_frame k new (rest : list str) :
  exists body post body',
    rest = body ++ post
    /\ Forall (fun l => isSectionHeader l = false) body
    /\ match post with [] => True | next :: _ => isSectionHeader next = true end
    /\ upsertedBody k new body body'
    /\ upsertBody k new rest = body' ++ post.
Proof.
  induction rest as [|l rest (body & post & body' & Hrest & Hb & Hp & Hu & Heq)].
  - exists [], [], [new]. repeat split; try done. by apply (body_appended _ _ []).
  - cbn [upsertBody]. destruct (isSectionHeader l) eqn:Hl.
    + exists [], (l :: rest), [new]. repeat split; try done. by apply (body_appended _ _ []).
    + destruct (hasKey k l) eqn:Hk.
      * exists (l :: body), post, (new :: body). subst rest. repeat split; try done.
        -- by constructor.
        -- by apply (body_replaced _ _ []).
      * exists (l :: body), post, (l :: body'). subst rest. rewrite Heq.
        repeat split; try done.
        -- by constructor.
        -- destruct Hu as [b1 old b2 Hb1 Hold|body Hbody].
           ++ apply (body_replaced _ _ (l :: b1)); [by constructor|done].
           ++ apply (body_appended _ _ (l :: body)). by constructor.
Qed.

(** C2, as amended.  [upsertInSection] with a non-empty new line leaves
    every line outside the targeted section as it is and in its place.
    When the section is there ([pre] up to its header, [body] up to the next
    header, [post] from there on), only [body] changes: its first line with
    the key is replaced, or the new line is added at its end.  When no line
    is the section header, a blank line, the header and the new line are
    added after the last line of the file. *)
Theorem upsert_locality (lines : list str) (section keyPrefix newLine : str) :
  newLine <> [] ->
  (Forall (fun l => TrimSpace l <> section) lines
   /\ upsertInSection lines section keyPrefix newLine = lines ++ [[]; section; newLine])
  \/ (exists pre hdr body post body',
        sectionSplit section lines pre hdr body post
        /\ upsertedBody keyPrefix newLine body body'
        /\ upsertInSection lines section keyPrefix newLine = pre ++ hdr :: body' ++ post).
Proof.
  intros Hnew. rewrite upsertInSection_upsertLines by done.
  destruct (list_find (fun l => TrimSpace l = section) lines) as [[start h]|] eqn:Hfind.
  - right. apply list_find_Some in Hfind as (Hlook & Hh & Hbefore).
    pose proof (take_drop_middle _ _ _ Hlook) as Hsplit.
    assert (Hpre : Forall (fun l => TrimSpace l <> section) (take start lines)).
    { apply Forall_forall. intros l [i Hi]%list_elem_of_lookup.
      apply lookup_take_Some in Hi as [Hi Hlti]. by eapply Hbefore. }
    destruct (upsertBody_frame keyPrefix newLine (drop (S start) lines))
      as (body & post & body' & Hrest & Hb & Hp & Hu & Heq).
    exists (take start lines), h, body, post, body'.
    split; [|split; [done|]].
    + unfold sectionSplit. by rewrite <- Hrest, Hsplit.
    + rewrite <- Hsplit at 1. by rewrite upsertLines_present, Heq.
  - left. apply list_find_None in Hfind. split; [done|]. by apply upsertLines_absent.
Qed.

Lemma HasPrefix_true (t p : str) : HasPrefix t p = true <-> exists r, t = p ++ r.
Proof.
  revert t. induction p as [|c p IH]; intros t.
  - split; [by exists t|intros _; by destruct t].
  - destruct t as [|d t]; cbn [HasPrefix].
    + split; [done|]. by intros [r Hr].
    + rewrite andb_true_iff, IH. split.
      * intros [->%Ascii.eqb_eq [r ->]]. by exists r.
      * intros [r [= -> ->]]. split; [apply Ascii.eqb_refl|by exists r].
Qed.

Lemma HasPrefix_app (p r : str) : HasPrefix (p ++ r) p = true.
Proof. apply HasPrefix_true. by exists r. Qed.

(** ** Upserts on the lines of one section *)





Lemma afterHeader_present sec (pre : list str) h rest :
  Forall (fun l => TrimSpace l <> sec) pre -> TrimSpace h = sec ->
  afterHeader sec (pre ++ h :: rest) = rest.
Proof.
  intros Hpre Hh. induction Hpre as [|l pre Hl _ IH]; cbn [app afterHeader].
  - by rewrite bool_decide_eq_true_2.
  - by rewrite bool_decide_eq_false_2.
Qed.

Lemma afterHeader_absent sec (lines : list str) :
  Forall (fun l => TrimSpace l <> sec) lines -> afterHeader sec lines = [].
Proof.
  induction 1 as [|l lines Hl _ IH]; [done|].
  cbn [afterHeader]. by rewrite bool_decide_eq_false_2.
Qed.


Lemma sectionBody_absent sec (lines : list str) :
  Forall (fun l => TrimSpace l <> sec) lines -> sectionBody sec lines = [].
Proof. intros Hl. unfold sectionBody. by rewrite afterHeader_absent. Qed.

Lemma upsertInSection_empty (lines : list str) sec k : upsertInSection lines sec k [] = lines.
Proof. done. Qed.

Lemma upsertInSection_present sec k new (pre : list str) h rest :
  Forall (fun l => TrimSpace l <> sec) pre -> TrimSpace h = sec ->
  upsertInSection (pre ++ h :: rest) sec k new = pre ++ h :: upsertBodyOpt k new rest.
Proof.
  intros Hpre Hh. unfold upsertBodyOpt. destruct new as [|c new]; [done|].
  cbn [isEmpty]. rewrite upsertInSection_upsertLines by done.
  by apply upsertLines_present.
Qed.

Lemma hasNetwork_present (pre : list str) h rest :
  TrimSpace h = lit "[Network]" -> hasNetwork (pre ++ h :: rest) = true.
Proof.
  intros Hh. unfold hasNetwork. rewrite existsb_app. cbn [existsb]. unfold eqStr.
  rewrite (bool_decide_eq_true_2 _ Hh). by rewrite orb_true_r.
Qed.

Lemma hasNetwork_absent (lines : list str) :
  Forall (fun l => TrimSpace l <> lit "[Network]") lines -> hasNetwork lines = false.
Proof.
  unfold hasNetwork. induction 1 as [|l lines Hl _ IH]; [done|].
  cbn [existsb]. unfold eqStr at 1. by rewrite (bool_decide_eq_false_2 _ Hl).
Qed.

(** The rewrite of a static configuration, seen from the [[Network]]
    header: the lines up to the header stay, the four upserts work on the
    lines below it. *)
Lemma staticLines_present `{GoLibrary} (pre : list str) h rest ip mask gw dns :
  Forall (fun l => TrimSpace l <> lit "[Network]") pre -> TrimSpace h = lit "[Network]" ->
  staticLines (pre ++ h :: rest) ip mask gw dns
  = pre ++ h :: staticBody ip mask gw dns rest.
Proof.
  intros Hpre Hh. unfold staticLines, staticBody.
  rewrite hasNetwork_present by done.
  by rewrite !upsertInSection_present by done.
Qed.

Lemma staticLines_split `{GoLibrary} (lines : list str) ip mask gw dns :
  exists pre h rest,
    staticLines lines ip mask gw dns = pre ++ h :: staticBody ip mask gw dns rest
    /\ Forall (fun l => TrimSpace l <> lit "[Network]") pre
    /\ TrimSpace h = lit "[Network]"
    /\ afterHeader (lit "[Network]") lines = rest.
Proof.
  destruct (list_find (fun l => TrimSpace l = lit "[Network]") lines)
    as [[start h]|] eqn:Hfind.
  - apply list_find_Some in Hfind as (Hlook & Hh & Hbefore).
    pose proof (take_drop_middle _ _ _ Hlook) as Hsplit.
    assert (Hpre : Forall (fun l => TrimSpace l <> lit "[Network]") (take start lines)).
    { apply Forall_forall. intros l [i Hi]%list_elem_of_lookup.
      apply lookup_take_Some in Hi as [Hi Hlti]. by eapply Hbefore. }
    exists (take start lines), h, (drop (S start) lines).
    rewrite <- staticLines_present by done. rewrite Hsplit.
    split; [done|]. split; [done|]. split; [done|].
    rewrite <- Hsplit at 1. by apply afterHeader_present.
  - apply list_find_None in Hfind.
    exists (lines ++ [[]]), (lit "[Network]"), [].
    assert (Hpre : Forall (fun l => TrimSpace l <> lit "[Network]") (lines ++ [[]])).
    { apply Forall_app. split; [done|]. by repeat constructor. }
    split; [|split; [done|split; [done|by rewrite afterHeader_absent]]].
    rewrite <- staticLines_present by done.
    unfold staticLines.
    rewrite hasNetwork_absent, (hasNetwork_present (lines ++ [[]]) (lit "[Network]") [])
      by done.
    by rewrite <- app_assoc.
Qed.

(** ** The four keys of a static configuration *)

Lemma hasKey_trimsTo k l : hasKey k l = true <-> trimsTo k l.
Proof. apply HasPrefix_true. Qed.

Lemma keyLine_trimsTo k x :
  k <> [] -> forallb plainByte k = true -> trimsTo k (k ++ x).
Proof. intros Hne Hk. exists (trimRight x). by apply TrimSpace_plain_prefix. Qed.

Ltac each_static_key :=
  unfold staticKeys in *;
  repeat match goal with
         | H : _ ∈ _ :: _ |- _ => apply elem_of_cons in H as [->|H]
         | H : _ ∈ [] |- _ => by apply elem_of_nil in H
         end.

Lemma staticKeys_plain k : k ∈ staticKeys -> k <> [] /\ forallb plainByte k = true.
Proof. intros Hk. each_static_key; by split. Qed.


Lemma staticKeys_disjoint k k' l :
  k ∈ staticKeys -> k' ∈ staticKeys -> k <> k' -> trimsTo k l -> hasKey k' l = false.
Proof.
  intros Hk Hk' Hne [r Hr]. unfold hasKey. rewrite Hr.
  each_static_key; first [done | reflexivity].
Qed.

Section StaticRewrite.
Context `{GoLibrary}.
Variables ip mask gw dns : str.
Hypothesis Hip : ip <> [].
Hypothesis Hgw : gw <> [].
Hypothesis Hdns : dns <> [].

Let sec := lit "[Network]".
Let na := staticAddrLine ip mask.

Lemma staticAddrLine_key : exists x, na = lit "Address=" ++ x.
Proof using Hip.
  unfold na, staticAddrLine. destruct ip; [done|]. cbn [isEmpty].
  destruct (isEmpty mask); [by eexists|].
  destruct (maskToPrefix mask >? 0); by eexists.
Qed.





End StaticRewrite.

Lemma upsert_locality_witness :
  let lines := [lit "[Match]"; lit "Name=eth0"; lit "[Network]"; lit "DNS=9.9.9.9"] in
  (Forall (fun l => TrimSpace l <> lit "[Match]") lines
   /\ upsertInSection lines (lit "[Match]") (lit "Name=") (lit "Name=eth1")
      = lines ++ [[]; lit "[Match]"; lit "Name=eth1"])
  \/ (exists pre hdr body post body',
        sectionSplit (lit "[Match]") lines pre hdr body post
        /\ upsertedBody (lit "Name=") (lit "Name=eth1") body body'
        /\ upsertInSection lines (lit "[Match]") (lit "Name=") (lit "Name=eth1")
           = pre ++ hdr :: body' ++ post).
Proof. apply upsert_locality. discriminate. Defined.

(** C2 as stated fails when the section is missing: the blank line written
    before the new header comes after the last line of the section that
    was last, and that section ([[Match]] here) goes from one line to two. *)
Lemma missing_section_adds_blank_line :
  let lines := [lit "[Match]"; lit "Name=eth0"] in
  let out := upsertInSection lines (lit "[Network]") (lit "Address=")
               (lit "Address=10.0.0.2/24") in
  out = [lit "[Match]"; lit "Name=eth0"; []; lit "[Network]"; lit "Address=10.0.0.2/24"]
  /\ sectionBody (lit "[Match]") lines = [lit "Name=eth0"]
  /\ sectionBody (lit "[Match]") out = [lit "Name=eth0"; []]
  /\ length (sectionBody (lit "[Match]") out) <> length (sectionBody (lit "[Match]") lines).
Proof. repeat split; try reflexivity. vm_compute. discriminate. Qed.



(** ** Writing a static configuration and reading it back *)

Lemma octet_table :
  forallb (fun k => let n := Z.of_nat k in
                    decimalOK (Itoa n) && bool_decide (parseOctet (Itoa n) = Some n))
          (seq 0 256) = true.
Proof. vm_compute. reflexivity. Qed.

Lemma prefix_table :
  forallb (fun k => let n := Z.of_nat k in
                    decimalOK (Itoa n) && bool_decide (Atoi (Itoa n) = Some n))
          (seq 0 33) = true.
Proof. vm_compute. reflexivity. Qed.

Lemma octet_facts (n : Z) :
  0 <= n <= 255 -> decimalOK (Itoa n) = true /\ parseOctet (Itoa n) = Some n.
Proof.
  intros Hn. pose proof octet_table as Htab. rewrite forallb_forall in Htab.
  assert (Hin : In (Z.to_nat n) (seq 0 256)) by (apply in_seq; lia).
  apply Htab in Hin. cbv zeta in Hin. rewrite Z2Nat.id in Hin by lia.
  apply andb_true_iff in Hin as [Hd Hp]. split; [done|].
  by apply bool_decide_eq_true in Hp.
Qed.

Lemma prefix_facts (p : Z) :
  0 <= p <= 32 -> decimalOK (Itoa p) = true /\ Atoi (Itoa p) = Some p.
Proof.
  intros Hn. pose proof prefix_table as Htab. rewrite forallb_forall in Htab.
  assert (Hin : In (Z.to_nat p) (seq 0 33)) by (apply in_seq; lia).
  apply Htab in Hin. cbv zeta in Hin. rewrite Z2Nat.id in Hin by lia.
  apply andb_true_iff in Hin as [Hd Hp]. split; [done|].
  by apply bool_decide_eq_true in Hp.
Qed.

Lemma addrByte_facts c :
  addrByte c = true ->
  plainByte c = true /\ c <> "/"%char /\ c <> ":"%char /\ c <> "010"%char.
Proof. destruct c as [[] [] [] [] [] [] [] []]; intros Hc; try discriminate Hc; done. Qed.

Lemma isDigit_facts c : isDigit c = true -> addrByte c = true /\ c <> "."%char.
Proof. destruct c as [[] [] [] [] [] [] [] []]; intros Hc; try discriminate Hc; done. Qed.

Lemma decimalOK_facts (s : str) :
  decimalOK s = true ->
  s <> [] /\ forallb addrByte s = true /\ ("."%char ∉ s).
Proof.
  intros [Hd Hne]%andb_true_iff. split; [by destruct s|].
  clear Hne. induction s as [|c s IH]; [split; [done|apply not_elem_of_nil]|].
  cbn [forallb] in *. apply andb_true_iff in Hd as [Hc Hs].
  destruct (isDigit_facts c Hc) as [Ha Hdot]. destruct (IH Hs) as [IH1 IH2].
  split; [by rewrite Ha|]. apply not_elem_of_cons. split; [congruence|done].
Qed.

Lemma addrBytes_facts (s : str) :
  forallb addrByte s = true ->
  forallb plainByte s = true /\ ("/"%char ∉ s) /\ (":"%char ∉ s) /\ ("010"%char ∉ s).
Proof.
  induction s as [|c s IH]; [intros _; repeat split; apply not_elem_of_nil|].
  cbn [forallb]. intros [Hc Hs]%andb_true_iff.
  destruct (addrByte_facts c Hc) as (H1 & H2 & H3 & H4).
  destruct (IH Hs) as (I1 & I2 & I3 & I4).
  repeat split; [by rewrite H1|..]; apply not_elem_of_cons; split; congruence || done.
Qed.

Lemma firstSeparator_dot (s r : str) :
  "."%char ∉ s -> ":"%char ∉ s -> firstSeparator (s ++ "."%char :: r) = Some "."%char.
Proof.
  induction s as [|c s IH]; [done|].
  intros [Hc Hs]%not_elem_of_cons [Hc' Hs']%not_elem_of_cons. cbn [app firstSeparator].
  destruct (Ascii.eqb_spec c "."); [done|]. destruct (Ascii.eqb_spec c ":"); [done|].
  by apply IH.
Qed.

Section Dotted.
Context `{GoLibrary}.
Variables a b c d : Z.
Hypothesis Ha : 0 <= a <= 255.
Hypothesis Hb : 0 <= b <= 255.
Hypothesis Hc : 0 <= c <= 255.
Hypothesis Hd : 0 <= d <= 255.

Lemma IPv4String_bytes :
  forallb addrByte (IPv4String a b c d) = true /\ IPv4String a b c d <> [].
Proof using Ha Hb Hc Hd.
  destruct (octet_facts a Ha) as [(Na & Ba & _)%decimalOK_facts _].
  destruct (octet_facts b Hb) as [(Nb & Bb & _)%decimalOK_facts _].
  destruct (octet_facts c Hc) as [(Nc & Bc & _)%decimalOK_facts _].
  destruct (octet_facts d Hd) as [(Nd & Bd & _)%decimalOK_facts _].
  unfold IPv4String. split.
  - rewrite !forallb_app, Ba, Bb, Bc, Bd. done.
  - by destruct (Itoa a).
Qed.

Lemma parseIPv4_IPv4String : parseIPv4 (IPv4String a b c d) = Some (IPv4 a b c d).
Proof using Ha Hb Hc Hd.
  destruct (octet_facts a Ha) as [(_ & _ & Da)%decimalOK_facts Pa].
  destruct (octet_facts b Hb) as [(_ & _ & Db)%decimalOK_facts Pb].
  destruct (octet_facts c Hc) as [(_ & _ & Dc)%decimalOK_facts Pc].
  destruct (octet_facts d Hd) as [(_ & _ & Dd)%decimalOK_facts Pd].
  unfold parseIPv4, IPv4String. cbn [lit list_ascii_of_string app].
  rewrite !Split_app_sep, Split_no_sep by done.
  by rewrite Pa, Pb, Pc, Pd.
Qed.

Lemma isIPv4_IPv4String : isIPv4 (IPv4String a b c d) = true.
Proof using Ha Hb Hc Hd.
  destruct IPv4String_bytes as [(Hp & _ & _ & _)%addrBytes_facts _].
  unfold isIPv4, ParseIP. rewrite TrimSpace_plain by done.
  destruct (octet_facts a Ha) as [(_ & Ba & Da)%decimalOK_facts _].
  apply addrBytes_facts in Ba as (_ & _ & Ca & _).
  assert (Hsep : firstSeparator (IPv4String a b c d) = Some "."%char).
  { unfold IPv4String. cbn [lit list_ascii_of_string app]. by apply firstSeparator_dot. }
  rewrite Hsep. cbn [Ascii.eqb Bool.eqb]. by rewrite parseIPv4_IPv4String.
Qed.
End Dotted.

Section ReadBack.
Context `{GoLibrary}.

Lemma scanNetworkLine_address st l :
  hasKey (lit "Address=") l = true -> (scanNetworkLine st l).1.1 = addrPayload l.
Proof.
  unfold hasKey, scanNetworkLine, addrPayload. intros Hk. destruct st as [[a g] n].
  rewrite Hk. apply HasPrefix_true in Hk as [r Hr]. by rewrite Hr.
Qed.

Lemma scanNetworkLine_other st l :
  hasKey (lit "Address=") l = false -> (scanNetworkLine st l).1.1 = st.1.1.
Proof.
  unfold hasKey, scanNetworkLine. intros Hk. destruct st as [[a g] n]. rewrite Hk.
  destruct (isEmpty (TrimSpace l) || HasPrefix (TrimSpace l) (lit "#")); [done|].
  destruct (HasPrefix (TrimSpace l) (lit "Gateway=")); [done|].
  destruct (HasPrefix (TrimSpace l) (lit "DNS=")); [|done].
  by destruct (find isIPv4 _).
Qed.

(** The address a file yields is that of its last [Address=] line. *)
Lemma scan_last_address (ls : list str) st :
  (fold_left scanNetworkLine ls st).1.1
  = match last (filter (fun l => hasKey (lit "Address=") l = true) ls) with
    | Some l => addrPayload l
    | None => st.1.1
    end.
Proof.
  induction ls as [|l ls IH] using rev_ind; [done|].
  rewrite fold_left_app, filter_app. cbn [fold_left].
  destruct (hasKey (lit "Address=") l) eqn:Hk.
  - rewrite scanNetworkLine_address by done.
    rewrite (filter_cons_True _ l) by done. by rewrite filter_nil, last_snoc.
  - rewrite scanNetworkLine_other by done.
    rewrite (filter_cons_False _ l) by congruence. by rewrite filter_nil, app_nil_r.
Qed.

Lemma parseNetworkFile_address (content : str) (a b c d p : Z) :
  0 <= a <= 255 -> 0 <= b <= 255 -> 0 <= c <= 255 -> 0 <= d <= 255 -> 1 <= p <= 32 ->
  (fold_left scanNetworkLine (Split content "010") ([], [], [])).1.1
  = IPv4String a b c d ++ lit "/" ++ Itoa p ->
  kvIP (parseNetworkFile content) = IPv4String a b c d
  /\ kvMask (parseNetworkFile content) = prefixToMask p.
Proof.
  intros Ha Hb Hc Hd Hp Hscan. unfold parseNetworkFile.
  destruct (fold_left scanNetworkLine (Split content "010") ([], [], []))
    as [[addr g] n]. cbn [fst] in Hscan. subst addr.
  destruct (IPv4String_bytes a b c d Ha Hb Hc Hd) as [Hbytes Hne].
  destruct (addrBytes_facts _ Hbytes) as (Hplain & Hslash & _ & _).
  destruct (prefix_facts p ltac:(lia)) as [(_ & Pb & _)%decimalOK_facts Hatoi].
  destruct (addrBytes_facts _ Pb) as (_ & Pslash & _ & _).
  assert (Hemp : isEmpty (IPv4String a b c d ++ lit "/" ++ Itoa p) = false).
  { by destruct (IPv4String a b c d). }
  rewrite Hemp. cbn [lit list_ascii_of_string app].
  rewrite Split_app_sep, Split_no_sep by done.
  rewrite TrimSpace_plain by done.
  rewrite isIPv4_IPv4String, Hatoi by done.
  destruct (Z.leb_spec 0 p); [|lia]. destruct (Z.leb_spec p 32); [|lia]. done.
Qed.
End ReadBack.

(** ** The [Address=] lines of the rewritten file *)

Lemma filter_upsertBody_same k new (rest : list str) :
  hasKey k new = true ->
  countKey k rest = countKey k (bodyLines rest) -> (countKey k rest <= 1)%nat ->
  filter (fun l => hasKey k l = true) (upsertBody k new rest) = [new].
Proof.
  intros Hk. unfold countKey. induction rest as [|l rest IH]; cbn [upsertBody bodyLines].
  - intros _ _. by rewrite filter_cons_True.
  - destruct (isSectionHeader l) eqn:Hl.
    + intros Heq%nil_length_inv _. rewrite filter_cons_True by done. by rewrite Heq.
    + destruct (hasKey k l) eqn:Hkl.
      * rewrite !(filter_cons_True _ l) by done. cbn [length]. intros _ Hle.
        rewrite filter_cons_True by done. f_equal. apply nil_length_inv. lia.
      * rewrite !(filter_cons_False _ l) by congruence. apply IH.
Qed.

Lemma filter_upsertBody_other k k' new' (rest : list str) :
  hasKey k new' = false -> (forall l, hasKey k' l = true -> hasKey k l = false) ->
  filter (fun l => hasKey k l = true) (upsertBody k' new' rest)
  = filter (fun l => hasKey k l = true) rest.
Proof.
  intros Hk' Hdis. induction rest as [|l rest IH]; cbn [upsertBody].
  - by rewrite filter_cons_False by congruence.
  - destruct (isSectionHeader l) eqn:Hl.
    + by rewrite filter_cons_False by congruence.
    + destruct (hasKey k' l) eqn:Hk'l.
      * rewrite filter_cons_False by congruence.
        by rewrite (filter_cons_False _ l) by (rewrite Hdis; done).
      * destruct (hasKey k l) eqn:Hkl.
        -- rewrite !(filter_cons_True _ l) by done. by rewrite IH.
        -- by rewrite !(filter_cons_False _ l) by congruence.
Qed.

Lemma Forall_upsertBody (P : str -> Prop) k new (rest : list str) :
  P new -> Forall P rest -> Forall P (upsertBody k new rest).
Proof.
  intros Hn. induction 1 as [|l rest Hl Hrest IH]; cbn [upsertBody].
  - by repeat constructor.
  - destruct (isSectionHeader l); [by repeat constructor|].
    destruct (hasKey k l); by constructor.
Qed.

Lemma Forall_upsertBodyOpt (P : str -> Prop) k new (rest : list str) :
  (new <> [] -> P new) -> Forall P rest -> Forall P (upsertBodyOpt k new rest).
Proof.
  intros Hn Hrest. unfold upsertBodyOpt. destruct new as [|c new]; [done|].
  cbn [isEmpty]. apply Forall_upsertBody; [by apply Hn|done].
Qed.

Lemma Split_no_newline (b : str) (sep : ascii) : Forall (fun l => sep ∉ l) (Split b sep).
Proof.
  induction b as [|c b IH]; cbn [Split].
  - repeat constructor. apply not_elem_of_nil.
  - destruct (Ascii.eqb_spec c sep) as [->|Hne].
    + constructor; [apply not_elem_of_nil|done].
    + destruct (Split b sep) as [|f fs]; [repeat constructor|].
      * apply not_elem_of_cons. split; [done|apply not_elem_of_nil].
      * apply Forall_cons in IH as [Hf Hfs]. constructor; [|done].
        apply not_elem_of_cons. by split.
Qed.

Section Rewritten.
Context `{GoLibrary}.
Variables (ip mask gw dns : str).
Hypothesis Hip : ip <> [].

Lemma static_keys_in :
  lit "Address=" ∈ staticKeys /\ lit "Gateway=" ∈ staticKeys
  /\ lit "DNS=" ∈ staticKeys /\ lit "DHCP=" ∈ staticKeys.
Proof. repeat split; apply (bool_decide_unpack _); by vm_compute. Qed.

(** The optional upsert of another key leaves the [Address=] lines alone. *)
Lemma filter_address_other k x (rest : list str) :
  k ∈ staticKeys -> k <> lit "Address=" ->
  filter (fun l => hasKey (lit "Address=") l = true)
         (upsertBodyOpt k (if isEmpty x then [] else k ++ x) rest)
  = filter (fun l => hasKey (lit "Address=") l = true) rest.
Proof.
  intros Hk Hne. unfold upsertBodyOpt. destruct x as [|c x]; [done|]. cbn [isEmpty].
  destruct (staticKeys_plain k Hk) as [Hk1 Hk2].
  assert (He : isEmpty (k ++ c :: x) = false) by (by destruct k).
  rewrite He. destruct static_keys_in as (Ka & _).
  apply filter_upsertBody_other.
  - apply (staticKeys_disjoint k); [done..|]. by apply keyLine_trimsTo.
  - intros l Hl. apply (staticKeys_disjoint k); [done..|]. by apply hasKey_trimsTo.
Qed.

Lemma staticBody_addresses (rest : list str) :
  countKey (lit "Address=") rest = countKey (lit "Address=") (bodyLines rest) ->
  (countKey (lit "Address=") rest <= 1)%nat ->
  filter (fun l => hasKey (lit "Address=") l = true) (staticBody ip mask gw dns rest)
  = [staticAddrLine ip mask].
Proof using Hip.
  intros Heq Hle. unfold staticBody. destruct static_keys_in as (Ka & Kg & Kn & Kh).
  change (upsertBody (lit "DHCP=") (lit "DHCP=no") ?r)
    with (upsertBodyOpt (lit "DHCP=")
            (if isEmpty (lit "no") then [] else lit "DHCP=" ++ lit "no") r).
  rewrite (filter_address_other (lit "DHCP=") (lit "no")) by done.
  rewrite (filter_address_other (lit "DNS=") dns) by done.
  rewrite (filter_address_other (lit "Gateway=") gw) by done.
  unfold upsertBodyOpt.
  destruct (staticAddrLine_key ip mask Hip) as [x Hx]. rewrite Hx at 1. cbn [isEmpty app lit list_ascii_of_string].
  apply filter_upsertBody_same; [|done..].
  apply hasKey_trimsTo. rewrite Hx. by apply keyLine_trimsTo.
Qed.
End Rewritten.

Lemma Forall_upsertLines (P : str -> Prop) sec k new (lines : list str) :
  P [] -> P sec -> P new -> Forall P lines -> Forall P (upsertLines sec k new lines).
Proof.
  intros H0 Hs Hn. induction 1 as [|l lines Hl Hlines IH]; cbn [upsertLines].
  - by repeat constructor.
  - case_bool_decide; constructor; try done. by apply Forall_upsertBody.
Qed.

Lemma Forall_upsertInSection (P : str -> Prop) sec k new (lines : list str) :
  P [] -> P sec -> (new <> [] -> P new) -> Forall P lines ->
  Forall P (upsertInSection lines sec k new).
Proof.
  intros H0 Hs Hn Hl. destruct new as [|c new]; [done|].
  rewrite upsertInSection_upsertLines by done. apply Forall_upsertLines; auto.
Qed.

Lemma HasSuffix_app (s suffix : str) : HasSuffix (s ++ suffix) suffix = true.
Proof. unfold HasSuffix. rewrite rev_app_distr. apply HasPrefix_app. Qed.

Lemma ethIface_eth (w : World) : exists r, ethIface w = lit "eth" ++ r.
Proof.
  unfold ethIface. destruct (isEmpty (routeIface w)); [by exists (lit "0")|].
  destruct (HasPrefix (routeIface w) (lit "eth")) eqn:Hp; [|by exists (lit "0")].
  by apply HasPrefix_true in Hp.
Qed.

Lemma matchEthNetwork_ethIface (w : World) :
  matchEthNetwork (ethIface w ++ lit ".network") = true.
Proof.
  destruct (ethIface_eth w) as [r ->]. unfold matchEthNetwork.
  rewrite HasSuffix_app, andb_true_r. apply andb_true_iff. split.
  - rewrite <- app_assoc. apply HasPrefix_app.
  - apply Nat.leb_le. rewrite !length_app. simpl. lia.
Qed.

Lemma ethIface_no_newline (w : World) :
  "010"%char ∉ routeIface w -> "010"%char ∉ ethIface w.
Proof.
  intros Hr. unfold ethIface.
  destruct (isEmpty (routeIface w) || negb (HasPrefix (routeIface w) (lit "eth"))); [|done].
  apply (bool_decide_unpack _). by vm_compute.
Qed.

(** Writing the target file puts it first among the matches of
    eth*.network. *)
Lemma Glob_first_replace (dir : list (str * str)) name c0 ms content :
  filter (fun f : str * str => matchEthNetwork f.1 = true) dir = (name, c0) :: ms ->
  getFile name dir = Some c0
  /\ filter (fun f : str * str => matchEthNetwork f.1 = true) (replaceFile name content dir)
     = (name, content) :: ms.
Proof.
  induction dir as [|[n c] dir IH]; [done|]. cbn [getFile replaceFile].
  destruct (matchEthNetwork n) eqn:Hn.
  - rewrite filter_cons_True by done. intros [= -> -> <-].
    unfold eqStr. rewrite bool_decide_eq_true_2 by done.
    by rewrite filter_cons_True.
  - rewrite filter_cons_False by (cbn; congruence). intros Hf.
    assert (Hname : matchEthNetwork name = true).
    { assert (Hin : (name, c0) ∈ filter (fun f : str * str => matchEthNetwork f.1 = true) dir)
        by (rewrite Hf; left).
      by apply list_elem_of_filter in Hin as [Hin _]. }
    unfold eqStr. rewrite bool_decide_eq_false_2 by congruence.
    rewrite filter_cons_False by (cbn; congruence). by apply IH.
Qed.

Lemma Glob_first_insert (dir : list (str * str)) name content :
  matchEthNetwork name = true ->
  filter (fun f : str * str => matchEthNetwork f.1 = true) dir = [] ->
  getFile name dir = None
  /\ filter (fun f : str * str => matchEthNetwork f.1 = true) (insertFile name content dir)
     = [(name, content)].
Proof.
  intros Hname. induction dir as [|[n c] dir IH].
  - intros _. split; [done|]. cbn [insertFile]. by rewrite filter_cons_True.
  - cbn [getFile insertFile]. destruct (matchEthNetwork n) eqn:Hn.
    + by rewrite filter_cons_True.
    + rewrite filter_cons_False by (cbn; congruence). intros Hf.
      destruct (IH Hf) as [Hget Hins].
      unfold eqStr. rewrite bool_decide_eq_false_2 by congruence. split; [done|].
      destruct (strLtb name n).
      * rewrite filter_cons_True by done.
        by rewrite filter_cons_False, Hf by (cbn; congruence).
      * by rewrite filter_cons_False by (cbn; congruence).
Qed.

Lemma Glob_after_write (w : World) content :
  exists ms,
    Glob matchEthNetwork (setNetDir w (putFile (targetName w) content (netDir w)))
    = (targetName w, content) :: ms.
Proof.
  unfold targetName, putFile, Glob. cbn [setNetDir netDir].
  destruct (filter (fun f : str * str => matchEthNetwork f.1 = true) (netDir w))
    as [|[name c0] ms] eqn:Hf.
  - destruct (Glob_first_insert _ (ethIface w ++ lit ".network") content
                (matchEthNetwork_ethIface w) Hf) as [-> ->]. by exists [].
  - destruct (Glob_first_replace _ _ _ _ content Hf) as [-> ->]. by exists ms.
Qed.

Section WriteThenQuery.
Context `{GoLibrary}.
Variables a b c d p : Z.
Hypothesis Ha : 0 <= a <= 255.
Hypothesis Hb : 0 <= b <= 255.
Hypothesis Hc : 0 <= c <= 255.
Hypothesis Hd : 0 <= d <= 255.
Hypothesis Hp : 1 <= p <= 32.

Let ip := IPv4String a b c d.
Let mask := prefixToMask p.

Lemma staticAddrLine_dotted :
  staticAddrLine ip mask = lit "Address=" ++ ip ++ lit "/" ++ Itoa p.
Proof using Ha Hb Hc Hd Hp.
  destruct (IPv4String_bytes a b c d Ha Hb Hc Hd) as [_ Hne].
  destruct (prefixToMask_facts p ltac:(lia)) as [Hm _].
  unfold staticAddrLine, mask. rewrite Hm, maskToPrefix_prefixToMask by lia.
  unfold ip. destruct (IPv4String a b c d); [done|]. cbn [isEmpty].
  destruct (Z.gtb_spec p 0); [done|lia].
Qed.

Lemma addrPayload_dotted :
  addrPayload (staticAddrLine ip mask) = ip ++ lit "/" ++ Itoa p.
Proof using Ha Hb Hc Hd Hp.
  destruct (IPv4String_bytes a b c d Ha Hb Hc Hd) as [Hbytes _].
  destruct (prefix_facts p ltac:(lia)) as [(_ & Pb & _)%decimalOK_facts _].
  assert (Hplain : forallb plainByte (ip ++ lit "/" ++ Itoa p) = true).
  { unfold ip. rewrite !forallb_app.
    apply addrBytes_facts in Hbytes as (-> & _). by apply addrBytes_facts in Pb as (-> & _). }
  rewrite staticAddrLine_dotted. unfold addrPayload.
  rewrite (TrimSpace_plain (lit "Address=" ++ _)) by (by rewrite forallb_app, Hplain).
  unfold TrimPrefix. rewrite HasPrefix_app. cbn [lit list_ascii_of_string length app drop].
  by apply TrimSpace_plain.
Qed.

Lemma staticLines_no_newline (lines : list str) (gw dns : str) :
  "010"%char ∉ gw -> "010"%char ∉ dns ->
  Forall (fun l : str => "010"%char ∉ l) lines ->
  Forall (fun l : str => "010"%char ∉ l) (staticLines lines ip mask gw dns).
Proof using Ha Hb Hc Hd Hp.
  intros Hgw Hdns Hlines.
  destruct (IPv4String_bytes a b c d Ha Hb Hc Hd) as [Hbytes _].
  destruct (prefix_facts p ltac:(lia)) as [(_ & Pb & _)%decimalOK_facts _].
  apply addrBytes_facts in Hbytes as (_ & _ & _ & Hipn).
  apply addrBytes_facts in Pb as (_ & _ & _ & Hpn).
  assert (Hlit : forall s : string, bool_decide ("010"%char ∉ lit s) = true -> "010"%char ∉ lit s).
  { intros s Hs. by apply bool_decide_eq_true in Hs. }
  unfold staticLines. rewrite staticAddrLine_dotted.
  repeat apply Forall_upsertInSection;
    try match goal with |- _ <> [] -> _ => intros _ end;
    try apply not_elem_of_nil; try (by apply Hlit).
  - destruct (isEmpty dns); [apply not_elem_of_nil|].
    rewrite not_elem_of_app. split; [by apply Hlit|done].
  - destruct (isEmpty gw); [apply not_elem_of_nil|].
    rewrite not_elem_of_app. split; [by apply Hlit|done].
  - rewrite !not_elem_of_app. repeat split; try done; by apply Hlit.
  - destruct (hasNetwork lines); [done|].
    apply Forall_app. split; [done|].
    repeat constructor; (apply not_elem_of_nil || by apply Hlit).
Qed.

(** The file the rewrite writes reads back as [ip] and [mask]. *)
Lemma staticLines_read_back (lines : list str) (gw dns : str) :
  let below := afterHeader (lit "[Network]") lines in
  "010"%char ∉ gw -> "010"%char ∉ dns ->
  Forall (fun l : str => "010"%char ∉ l) lines ->
  countKey (lit "Address=") below = countKey (lit "Address=") (bodyLines below) ->
  (countKey (lit "Address=") below <= 1)%nat ->
  let r := parseNetworkFile (Join (staticLines lines ip mask gw dns) ["010"%char]) in
  kvIP r = ip /\ kvMask r = mask.
Proof using Ha Hb Hc Hd Hp.
  cbv zeta. intros Hgw Hdns Hlines Hcount Hle.
  pose proof (staticLines_no_newline lines gw dns Hgw Hdns Hlines) as Hnl.
  destruct (IPv4String_bytes a b c d Ha Hb Hc Hd) as [_ Hne].
  destruct (staticLines_split lines ip mask gw dns)
    as (pre & h & rest & Heq & Hpre & Hh & Hrest).
  rewrite Hrest in Hcount, Hle. rewrite Heq in Hnl |- *.
  apply parseNetworkFile_address; try done.
  rewrite Split_Join by (done || by destruct pre).
  rewrite scan_last_address, filter_app.
  rewrite (filter_cons_False _ h) by (unfold hasKey; by rewrite Hh).
  rewrite staticBody_addresses by done.
  rewrite last_snoc. apply addrPayload_dotted.
Qed.
End WriteThenQuery.

Lemma startLines_no_newline (w : World) :
  "010"%char ∉ routeIface w ->
  Forall (fun l : str => "010"%char ∉ l) (startLines w).
Proof.
  intros Hr. unfold startLines. destruct (getFile (targetName w) (netDir w)) as [b|].
  - apply Split_no_newline.
  - pose proof (ethIface_no_newline w Hr) as He.
    repeat constructor; try (apply (bool_decide_unpack _); by vm_compute).
    rewrite not_elem_of_app. split; [|done]. apply (bool_decide_unpack _). by vm_compute.
Qed.

Section WorldReadBack.
Context `{GoLibrary}.

Lemma applySystemdNetworkConfig_written w ip mask gw dns :
  writeOK w (NetworkFile (targetName w)) = true ->
  applySystemdNetworkConfig w ip mask gw dns
  = (true, setNetDir w (putFile (targetName w)
             (Join (staticLines (startLines w) ip mask gw dns) ["010"%char]) (netDir w))).
Proof.
  unfold applySystemdNetworkConfig, writeNetworkFile, startLines, targetName.
  cbv zeta. by intros ->.
Qed.

Lemma parseNetworkFiles_first name content ms :
  kvIP (parseNetworkFile content) <> [] ->
  parseNetworkFiles ((name, content) :: ms) = parseNetworkFile content.
Proof.
  intros Hne. cbn [parseNetworkFiles]. unfold allEmpty.
  by destruct (kvIP (parseNetworkFile content)).
Qed.

Lemma getNetworkParams_file w :
  let r := parseNetworkFiles (Glob matchEthNetwork w) in
  kvIP r <> [] -> kvMask r <> [] ->
  kvIP (getNetworkParams w) = kvIP r /\ kvMask (getNetworkParams w) = kvMask r.
Proof.
  cbv zeta. intros Hip Hmask. unfold getNetworkParams, allEmpty.
  destruct (kvIP (parseNetworkFiles (Glob matchEthNetwork w))) eqn:Ei; [done|].
  cbn [isEmpty andb]. rewrite Ei. destruct (liveIPMask w) as [ip2 mask2].
  cbn [kvIP kvMask isEmpty].
  by destruct (kvMask (parseNetworkFiles (Glob matchEthNetwork w))).
Qed.

(** The static apply, when its write succeeds, leaves a file that reads
    back as the address and the mask it was given. *)
Lemma static_write_read_back (w : World) (a b c d p : Z) (gw dns : str) :
  let ip := IPv4String a b c d in
  let mask := prefixToMask p in
  let below := afterHeader (lit "[Network]") (startLines w) in
  let w' := (applySystemdNetworkConfig w ip mask gw dns).2 in
  0 <= a <= 255 -> 0 <= b <= 255 -> 0 <= c <= 255 -> 0 <= d <= 255 -> 1 <= p <= 32 ->
  "010"%char ∉ gw -> "010"%char ∉ dns -> "010"%char ∉ routeIface w ->
  countKey (lit "Address=") below = countKey (lit "Address=") (bodyLines below) ->
  (countKey (lit "Address=") below <= 1)%nat ->
  writeOK w (NetworkFile (targetName w)) = true ->
  (applySystemdNetworkConfig w ip mask gw dns).1 = true
  /\ kvIP (parseNetworkFiles (Glob matchEthNetwork w')) = ip
  /\ kvMask (parseNetworkFiles (Glob matchEthNetwork w')) = mask
  /\ kvIP (getNetworkParams w') = ip
  /\ kvMask (getNetworkParams w') = mask.
Proof.
  cbv zeta. intros Ha Hb Hc Hd Hp Hgw Hdns Hr Hcount Hle Hw.
  rewrite applySystemdNetworkConfig_written by done. cbn [fst snd].
  set (content := Join _ _).
  destruct (Glob_after_write w content) as [ms Hglob].
  destruct (staticLines_read_back a b c d p Ha Hb Hc Hd Hp (startLines w) gw dns
              Hgw Hdns (startLines_no_newline w Hr) Hcount Hle) as [Hip Hmask].
  fold content in Hip, Hmask.
  destruct (IPv4String_bytes a b c d Ha Hb Hc Hd) as [_ Hne].
  destruct (prefixToMask_facts p ltac:(lia)) as [Hm _].
  assert (Hfirst : parseNetworkFiles ((targetName w, content) :: ms) = parseNetworkFile content).
  { apply parseNetworkFiles_first. by rewrite Hip. }
  pose proof (getNetworkParams_file
                (setNetDir w (putFile (targetName w) content (netDir w)))) as Hq.
  cbv zeta in Hq. rewrite Hglob, Hfirst, Hip, Hmask in *.
  split; [done|]. split; [done|]. split; [done|].
  apply Hq; [done|]. intros Hz. by rewrite Hz in Hm.
Qed.

(** C3, as amended.  A CFG request whose decoded IP is a dotted quad and
    whose decoded MASK is the dotted mask of a prefix length from 1 to 32,
    whose gateway and DNS values and the interface name hold no line break,
    on a target file that holds, after its [[Network]] header, at most one
    [Address=] line and that one inside the section: when the record and
    the file are written, the reply is [CFG_ACK|ID=<id>|NET_ACK], and what
    [parseNetworkFiles] reads from the files eth*.network, and so what
    [getNetworkParams] returns, is that IP and that mask. *)
Theorem write_then_query (env : Env) (w : World) (datagram : str) (a b c d p : Z) :
  let msg := TrimSpace datagram in
  let kv := parseNetKV msg in
  let below := afterHeader (lit "[Network]") (startLines w) in
  let reply := (respond env w datagram).1 in
  let w' := (respond env w datagram).2 in
  classify msg = CmdCFG ->
  hasDHCPFlag msg = false ->
  0 <= a <= 255 -> 0 <= b <= 255 -> 0 <= c <= 255 -> 0 <= d <= 255 -> 1 <= p <= 32 ->
  kvIP kv = IPv4String a b c d ->
  kvMask kv = prefixToMask p ->
  "010"%char ∉ kvGW kv -> "010"%char ∉ kvDNS kv -> "010"%char ∉ routeIface w ->
  countKey (lit "Address=") below = countKey (lit "Address=") (bodyLines below) ->
  (countKey (lit "Address=") below <= 1)%nat ->
  writeOK w DeviceConfigFile = true ->
  writeOK w (NetworkFile (targetName w)) = true ->
  reply = lit "CFG_ACK|ID=" ++ ID (effectiveConfig env msg) ++ lit "|NET_ACK"
  /\ kvIP (parseNetworkFiles (Glob matchEthNetwork w')) = IPv4String a b c d
  /\ kvMask (parseNetworkFiles (Glob matchEthNetwork w')) = prefixToMask p
  /\ kvIP (getNetworkParams w') = IPv4String a b c d
  /\ kvMask (getNetworkParams w') = prefixToMask p.
Proof.
  cbv zeta. intros Hcls Hdhcp Ha Hb Hc Hd Hp Hip Hmask Hgw Hdns Hr Hcount Hle Hsave Hnet.
  unfold respond. rewrite Hcls, handleCFG_cases. cbv zeta.
  rewrite Hsave, Hdhcp. cbn [negb].
  destruct (IPv4String_bytes a b c d Ha Hb Hc Hd) as [_ Hne].
  assert (Hany : allEmpty (parseNetKV (TrimSpace datagram)) = false).
  { unfold allEmpty. rewrite Hip. by destruct (IPv4String a b c d). }
  rewrite Hany. cbn [negb fst snd]. rewrite Hip, Hmask.
  match goal with |- context [applySystemdNetworkConfig ?x _ _ _ _] => set (w3 := x) end.
  destruct (static_write_read_back w3 a b c d p (kvGW (parseNetKV (TrimSpace datagram)))
              (kvDNS (parseNetKV (TrimSpace datagram)))
              Ha Hb Hc Hd Hp Hgw Hdns Hr Hcount Hle Hnet) as (Hok & Hrest).
  rewrite Hok. done.
Qed.
End WorldReadBack.

Lemma write_then_query_witness :
  let r := @respond asciiLibrary sampleEnv sampleWorld
             (lit "CFG|IP=192.168.1.50|MASK=255.255.255.0|GW=192.168.1.1") in
  r.1 = lit "CFG_ACK|ID=HOST-a|NET_ACK"
  /\ kvIP (@getNetworkParams asciiLibrary r.2) = lit "192.168.1.50"
  /\ kvMask (@getNetworkParams asciiLibrary r.2) = lit "255.255.255.0".
Proof.
  cbv zeta.
  destruct (@write_then_query asciiLibrary sampleEnv sampleWorld
              (lit "CFG|IP=192.168.1.50|MASK=255.255.255.0|GW=192.168.1.1")
              192 168 1 50 24) as (Hr & _ & _ & Hi & Hm);
    first [ exact (conj Hr (conj Hi Hm)) | reflexivity | lia
          | apply (bool_decide_unpack _); by vm_compute
          | vm_compute; lia ].
Defined.

(** C3 as stated fails on a file that holds two [Address=] lines: the
    rewrite replaces the first, the reading takes the last. *)
Lemma second_address_line_is_read_back :
  let w := {| netDir := [(lit "eth0.network",
                          Join [lit "[Network]"; lit "Address=10.0.0.1/8";
                                lit "Address=10.0.0.2/8"] ["010"%char])];
              routeIface := lit "eth0"; uniqueID := None; hostname := None;
              deviceConfig := None; unixMilli := 0; writeOK := fun _ => true;
              rebootError := None; liveIPMask := ([], []);
              liveGateway := []; liveDNS := []; liveIface := []; calls := [] |} in
  let r := @respond asciiLibrary sampleEnv w
             (lit "CFG|IP=192.168.1.50|MASK=255.255.255.0|GW=192.168.1.1") in
  r.1 = lit "CFG_ACK|ID=HOST-a|NET_ACK"
  /\ getFile (lit "eth0.network") (netDir r.2)
     = Some (Join [lit "[Network]"; lit "Address=192.168.1.50/24";
                   lit "Address=10.0.0.2/8"; lit "Gateway=192.168.1.1"; lit "DHCP=no"]
                  ["010"%char])
  /\ kvIP (@parseNetworkFiles asciiLibrary (Glob matchEthNetwork r.2)) = lit "10.0.0.2"
  /\ kvMask (@parseNetworkFiles asciiLibrary (Glob matchEthNetwork r.2)) = lit "255.0.0.0"
  /\ (@respond asciiLibrary sampleEnv r.2 (lit "QUERY_NET")).1
     = lit "NET|IP=10.0.0.2|MASK=255.0.0.0|GW=192.168.1.1|IF=eth0|IFACE=eth0".
Proof. cbv zeta. repeat split; vm_compute; reflexivity. Qed.
